(** * onnx_mxnet.import_onnx: the ONNX graph importer, embedded in Rocq

    A shallow embedding of [onnx_mxnet/import_onnx.py]: the operator
    translation [_convert_operator] and the helper class [GraphProto] with
    its method [from_onnx] and the workarounds [_fix_gemm], [_parse_attr],
    [_fix_outputs], [_fix_bias], [_fix_bias_shape] and [_fix_channels].

    Conventions of the embedding.
    - Python dictionaries ([_nodes], [_params], [_renames], attribute
      dictionaries) are finite maps [gmap string _]; nothing in the module
      observes their insertion order.
    - A Python exception is a value of [Py.exn]; a function that can raise
      returns [Py.result].  Messages keep the source's format template, the
      formatted arguments are left out.  [assert] statements are executed
      (the interpreter is not run with [-O]).
    - Python [float] is an IEEE 754 binary64 number ([PrimFloat.float]),
      Python [int] is [Z].
    - The instance state of the helper class is the record [GraphProto];
      methods take it as [self] and return the updated record when they
      mutate it. *)

From Stdlib Require Import ZArith List Floats.
From stdpp Require Import base strings gmap list pretty.

Open Scope Z_scope.

(** ** The fragment of the Python runtime the module relies on *)
Module Py.

Inductive exn : Type :=
| ValueError (msg : string)
| AssertionError (msg : string)
| NotImplementedError (msg : string)
| RuntimeError (msg : string)
| KeyError (key : option string)
| IndexError
| TypeError
| OverflowError.

Inductive result (A : Type) : Type :=
| Ok (a : A)
| Raise (e : exn).
Global Arguments Ok {A} a.
Global Arguments Raise {A} e.

Global Instance result_ret : MRet result := λ A, @Ok A.
Global Instance result_bind : MBind result := λ A B f m,
  match m with
  | Ok a => f a
  | Raise e => Raise e
  end.

(** Values that occur in attribute dictionaries. *)
#[warnings="-register-all"]
Inductive val : Type :=
| Float (x : float)
| Int (n : Z)
| Bool (b : bool)
| Bytes (s : string)
| Str (s : string)
| Tuple (xs : list val).

(** [assert cond, msg] *)
Definition assert_ (P : Prop) `{Decision P} (msg : string) : result unit :=
  if decide P then Ok tt else Raise (AssertionError msg).

(** [l[i]] on a sequence: a negative index counts from the end. *)
Definition getitem {A} (l : list A) (i : Z) : result A :=
  let n := Z.of_nat (length l) in
  let j := if decide (i < 0) then i + n else i in
  if decide (j < 0) then Raise IndexError
  else match l !! Z.to_nat j with
       | Some x => Ok x
       | None => Raise IndexError
       end.

(** [l[i] = x] on a list, for a non-negative index. *)
Definition setitem {A} (l : list A) (i : nat) (x : A) : result (list A) :=
  if decide (i < length l)%nat then Ok (<[i:=x]> l) else Raise IndexError.

(** [l[:stop]] *)
Definition slice_to {A} (l : list A) (stop : Z) : list A :=
  let n := Z.of_nat (length l) in
  let k := if decide (stop < 0) then Z.max 0 (n + stop) else stop in
  take (Z.to_nat k) l.

(** [d[k]] on a dictionary with string keys. *)
Definition dict_getitem {V} (d : gmap string V) (k : string) : result V :=
  match d !! k with
  | Some v => Ok v
  | None => Raise (KeyError (Some k))
  end.

(** [d.get(k, dflt)] *)
Definition dict_get {V} (d : gmap string V) (k : string) (dflt : V) : V :=
  default dflt (d !! k).

(** Characters removed by [str.strip()]: the ASCII white space. *)
Definition isspace (c : Ascii.ascii) : bool :=
  let n := Ascii.nat_of_ascii c in
  bool_decide (n = 32 ∨ (9 ≤ n ∧ n ≤ 13) ∨ (28 ≤ n ∧ n ≤ 31))%nat.

Fixpoint lstrip (s : string) : string :=
  match s with
  | EmptyString => EmptyString
  | String c s' => if isspace c then lstrip s' else s
  end.

Definition strip (s : string) : string :=
  String.rev (lstrip (String.rev (lstrip s))).

(** [float(n)] for an integer: round to nearest, ties to even, and
    [OverflowError] when the integer is beyond the range of a float. *)
Definition float_of_int (n : Z) : result float :=
  match binary_normalize prec emax n 0 false with
  | S754_infinity _ => Raise OverflowError
  | x => Ok (SF2Prim x)
  end.

(** [int(x)] for a float: truncation towards zero. *)
Definition int_of_float (x : float) : result Z :=
  match Prim2SF x with
  | S754_zero _ => Ok 0
  | S754_infinity _ => Raise OverflowError
  | S754_nan => Raise (ValueError "cannot convert float NaN to integer")
  | S754_finite sg m e =>
      let a := if decide (0 ≤ e) then Z.pos m * 2 ^ e else Z.pos m / 2 ^ (- e) in
      Ok (if sg then - a else a)
  end.

Section Conversions.
(** Parsing of a numeric literal held in a string is the interpreter's;
    [None] stands for its [ValueError]. *)
Variable parse_float : string → option float.
Variable parse_int : string → option Z.

(** [float(v)] *)
Definition float_ (v : val) : result float :=
  match v with
  | Float x => Ok x
  | Int n => float_of_int n
  | Bool b => Ok (if b then 1.0%float else 0.0%float)
  | Bytes s | Str s =>
      match parse_float s with
      | Some x => Ok x
      | None => Raise (ValueError "could not convert string to float")
      end
  | Tuple _ => Raise TypeError
  end.

(** [int(v)] *)
Definition int_ (v : val) : result Z :=
  match v with
  | Float x => int_of_float x
  | Int n => Ok n
  | Bool b => Ok (if b then 1 else 0)
  | Bytes s | Str s =>
      match parse_int s with
      | Some n => Ok n
      | None => Raise (ValueError "invalid literal for int() with base 10")
      end
  | Tuple _ => Raise TypeError
  end.
End Conversions.

End Py.
Import Py.

(** An attribute dictionary: the [attrs] of the source. *)
Abbreviation attrs_t := (gmap string Py.val).

(** ** The fragment of MXNet the module relies on *)
Module mx.

(** A tensor ([numpy.ndarray] and [mx.nd.NDArray] alike): its shape and its
    flat buffer, each element as a binary64 number.  [asnumpy] converts an
    [NDArray] to a [numpy] array and is the identity here. *)
Record ndarray : Type := { shape : list Z; buffer : list float }.

(** The cast of an element to [float32]: round to nearest, ties to even,
    in the binary32 format. *)
Definition float32 (x : float) : float :=
  match Prim2SF x with
  | S754_finite s m e =>
      SF2Prim (binary_normalize 24 128 (if s then Z.neg m else Z.pos m) e s)
  | _ => x
  end.

(** [mx.nd.array(a)] of a [numpy] array: the same shape, the elements cast
    to [float32], the default type of an [NDArray]. *)
Definition array (a : ndarray) : ndarray :=
  {| shape := shape a; buffer := float32 <$> buffer a |}.

(** [a.size]: the number of elements. *)
Definition size (a : ndarray) : Z := foldr Z.mul 1 (shape a).

(** [a.reshape(newshape)], where at most one dimension may be [-1]. *)
Definition reshape (a : ndarray) (newshape : list Z) : result ndarray :=
  let s_known := foldr Z.mul 1 (filter (λ d, 0 ≤ d) newshape) in
  match filter (λ d, d < 0) newshape with
  | [] =>
      if decide (s_known = size a)
      then Ok {| shape := newshape; buffer := buffer a |}
      else Raise (ValueError "cannot reshape array")
  | [_] =>
      if decide (s_known = 0 ∨ size a `mod` s_known ≠ 0)
      then Raise (ValueError "cannot reshape array")
      else Ok {| shape := (λ d, if decide (d < 0) then size a `div` s_known else d) <$> newshape;
                 buffer := buffer a |}
  | _ => Raise (ValueError "can only specify one unknown dimension")
  end.

(** Symbols.  An operator of [mx.sym] is known by its name; [apply] is the
    call of [op] on positional [args], with the keywords [name] and [kwargs];
    [getitem s i] is [s[i]]. *)
#[warnings="-register-all"]
Inductive Symbol : Type :=
| Variable_ (name : string) (shape : option (list Z))
| transpose (data : Symbol) (axes : list Z)
| _MulScalar (data : Symbol) (scalar : float)
| apply (op : string) (name : option string) (args : list Symbol) (kwargs : attrs_t)
| getitem (s : Symbol) (index : nat)
| Group (symbols : list Symbol).

(** [s.name]: the name of the node behind a single-output symbol.  A node
    built without a name gets one from the framework's name manager, which
    is not modelled: [None] stands for such a name, and for the [None] of a
    group. *)
Fixpoint name (s : Symbol) : option string :=
  match s with
  | Variable_ n _ => Some n
  | apply _ n _ _ => n
  | getitem s' _ => name s'
  | transpose _ _ | _MulScalar _ _ | Group _ => None
  end.

End mx.

(** ** The protocol-buffer messages of ONNX that the importer reads *)
Module onnx.

Record TensorProto : Type := {
  tensor_name : string;
  dims : list Z;
  raw_data : string;
}.

(** [t] and [g] hold a tensor or a sub-graph, [tensors] and [graphs] lists
    of them; the importer only tests their presence. *)
Record AttributeProto : Type := {
  attr_name : string;
  f : option float;
  i : option Z;
  s : option string;
  floats : list float;
  ints : list Z;
  strings : list string;
  t : option TensorProto;
  g : option unit;
  tensors : list TensorProto;
  graphs : list unit;
}.

Record NodeProto : Type := {
  op_type : string;
  node_name : string;
  input : list string;
  output : list string;
  attribute : list AttributeProto;
}.

Record ValueInfoProto : Type := { value_name : string }.

Record GraphProto : Type := {
  initializer : list TensorProto;
  graph_input : list ValueInfoProto;
  graph_output : list ValueInfoProto;
  node : list NodeProto;
}.

End onnx.

(** ** The helper class [GraphProto] *)

(** The instance attributes set by [__init__]. *)
Record GraphProto : Type := {
  _nodes : gmap string mx.Symbol;
  _params : gmap string mx.ndarray;
  _renames : gmap string string;
  _num_input : nat;
  _num_param : nat;
}.

Definition __init__ : GraphProto :=
  {| _nodes := ∅; _params := ∅; _renames := ∅; _num_input := 0; _num_param := 0 |}.

(** A conversion function of the table: [attrs -> (new_op_name, new_attrs)]. *)
Abbreviation converter := (attrs_t → result (string * attrs_t)).

Section Importer.

(** What the module takes from outside [import_onnx.py]:
    - [_identity_list] and [_convert_map], the tables of [import_helper];
    - [mx_registry], the operator names [mx.sym] exposes besides the ones
      this module names itself;
    - [to_array], ONNX's decoder of a tensor message;
    - [list_outputs], the output names MXNet gives a built symbol;
    - the interpreter's parsers of numeric literals. *)
Variable _identity_list : list string.
Variable _convert_map : gmap string converter.
Variable mx_registry : list string.
Variable to_array : onnx.TensorProto → result mx.ndarray.
Variable list_outputs : mx.Symbol → list string.
Variable parse_float : string → option float.
Variable parse_int : string → option Z.

(** The attributes of [mx.sym]: the functions the module names
    ([mx.sym.Convolution], ...), and the registry. *)
Definition mx_sym_dir : list string :=
  ["Convolution"; "Deconvolution"; "FullyConnected"; "transpose"; "Variable"; "Group"]
  ++ mx_registry.

(** [getattr(mx.sym, op_name, None)]: the operator, known by its name. *)
Definition getattr_mx_sym (op_name : string) : option string :=
  if decide (op_name ∈ mx_sym_dir) then Some op_name else None.

(** [x if x else dflt] for a list and for a dictionary argument. *)
Definition list_or_default {A} (x : option (list A)) (dflt : list A) : list A :=
  match x with
  | Some (a :: l) => a :: l
  | _ => dflt
  end.

Definition dict_or_default {V} (x : option (gmap string V)) (dflt : gmap string V)
  : gmap string V :=
  match x with
  | Some m => if decide (size m = 0%nat) then dflt else m
  | None => dflt
  end.

Definition _convert_operator (op_name : string) (attrs : attrs_t)
    (identity_list : option (list string))
    (convert_map : option (gmap string converter)) : result (string * attrs_t) :=
  let identity_list := list_or_default identity_list _identity_list in
  let convert_map := dict_or_default convert_map _convert_map in
  '(op_name, attrs) ←
    (if decide (op_name ∈ identity_list) then Ok (op_name, attrs)
     else match convert_map !! op_name with
          | Some cvt => cvt attrs
          | None => Raise (NotImplementedError "Operator {} not implemented.")
          end);
  match getattr_mx_sym op_name with
  | Some op => Ok (op, attrs)
  | None => Raise (RuntimeError "Unable to map op_name {} to sym")
  end.

(** [[mx.sym.Convolution, mx.sym.Deconvolution, mx.sym.FullyConnected]] *)
Definition conv_family : list string :=
  ["Convolution"; "Deconvolution"; "FullyConnected"].

Definition _parse_array (tensor_proto : onnx.TensorProto) : result mx.ndarray :=
  a ← to_array tensor_proto;
  np_array ← mx.reshape a (onnx.dims tensor_proto);
  Ok (mx.array np_array).

(** The body of the loop of [_parse_attr] for one attribute [a]. *)
Definition parse_attr_scalar (name : string) (field : option val) (attrs : attrs_t)
  : attrs_t :=
  match field with
  | Some v => <[name := v]> attrs
  | None => attrs
  end.

Definition parse_attr_list (name : string) (field : list val) (attrs : attrs_t)
  : result attrs_t :=
  match field with
  | [] => Ok attrs
  | _ :: _ =>
      _ ← assert_ (attrs !! name = None) "Only one type of attr is allowed";
      Ok (<[name := Tuple field]> attrs)
  end.

Definition parse_attr_unsupported (present : bool) (field : string) : result unit :=
  if present then Raise (NotImplementedError "Filed {} is not supported in mxnet.")
  else Ok tt.

Definition _parse_attr_step (attrs : attrs_t) (a : onnx.AttributeProto)
  : result attrs_t :=
  let name := onnx.attr_name a in
  let attrs := parse_attr_scalar name (Float <$> onnx.f a) attrs in
  let attrs := parse_attr_scalar name (Int <$> onnx.i a) attrs in
  let attrs := parse_attr_scalar name (Bytes <$> onnx.s a) attrs in
  attrs ← parse_attr_list name (Float <$> onnx.floats a) attrs;
  attrs ← parse_attr_list name (Int <$> onnx.ints a) attrs;
  attrs ← parse_attr_list name (Bytes <$> onnx.strings a) attrs;
  _ ← parse_attr_unsupported (bool_decide (is_Some (onnx.t a))) "t";
  _ ← parse_attr_unsupported (bool_decide (is_Some (onnx.g a))) "g";
  _ ← parse_attr_unsupported (bool_decide (onnx.tensors a ≠ [])) "tensors";
  _ ← parse_attr_unsupported (bool_decide (onnx.graphs a ≠ [])) "graphs";
  match attrs !! name with
  | None => Raise (ValueError "Cannot parse attribute: {}.")
  | Some _ => Ok attrs
  end.

(** [for x in xs: acc = step(acc, x)], stopping at the first exception. *)
Fixpoint for_each {S A} (step : S → A → result S) (acc : S) (xs : list A)
  : result S :=
  match xs with
  | [] => Ok acc
  | x :: xs' => acc' ← step acc x; for_each step acc' xs'
  end.

Definition _parse_attr (attr_proto : list onnx.AttributeProto) : result attrs_t :=
  for_each _parse_attr_step ∅ attr_proto.

Definition _fix_outputs (op : string) (outputs : list string) : result (list string) :=
  if decide (op = "Dropout") then
    _ ← assert_ (length outputs = 2%nat) "ONNX have two outputs for dropout layer.";
    Ok (slice_to outputs (-1))
  else Ok outputs.

Definition _fix_bias (op : string) (attrs : attrs_t) (num_inputs : nat)
  : result attrs_t :=
  if decide (op ∉ conv_family) then Ok attrs
  else if decide (num_inputs = 3%nat) then Ok (<["no_bias" := Bool false]> attrs)
  else if decide (num_inputs = 2%nat) then Ok (<["no_bias" := Bool true]> attrs)
  else Raise (ValueError "Unexpected number of inputs for: {}").

(** [bias] is an [NDArray], of type float32 already: the cast of
    [mx.nd.array] changes none of its elements and is not written. *)
Definition _fix_bias_shape (self : GraphProto) (op_name last_op_name : string)
    (inputs : list string) : result GraphProto :=
  if decide (op_name = "Add" ∧ last_op_name = "Conv") then
    _ ← assert_ (length inputs = 2%nat) "";
    i1 ← Py.getitem inputs 1;
    let bias_name := dict_get (_renames self) i1 i1 in
    bias ← dict_getitem (_params self) bias_name;
    _ ← assert_ (length (mx.shape bias) = 1%nat) "";
    bias ← mx.reshape bias [1; -1; 1; 1];
    Ok {| _nodes := <[bias_name := mx.Variable_ bias_name (Some (mx.shape bias))]> (_nodes self);
          _params := <[bias_name := bias]> (_params self);
          _renames := _renames self;
          _num_input := _num_input self;
          _num_param := _num_param self |}
  else Ok self.

Definition _fix_channels (self : GraphProto) (op : string) (attrs : attrs_t)
    (inputs : list string) : result attrs_t :=
  if decide (op ∉ conv_family) then Ok attrs
  else
    i1 ← Py.getitem inputs 1;
    weight_name ← dict_getitem (_renames self) i1;
    match _params self !! weight_name with
    | None => Raise (ValueError "Unable to get channels/units attr from onnx graph.")
    | Some w =>
        let wshape := mx.shape w in
        _ ← assert_ (2 ≤ length wshape)%nat "Weights shape is invalid: {}";
        channels ← Py.getitem wshape 0;
        if decide (op ∈ ["FullyConnected"])
        then Ok (<["num_hidden" := Int channels]> attrs)
        else Ok (<["num_filter" := Int channels]> attrs)
    end.

Definition _fix_gemm (self : GraphProto) (op_name : string)
    (inputs : list mx.Symbol) (old_attr : attrs_t)
  : result (option string * list mx.Symbol * attrs_t) :=
  let op := getattr_mx_sym op_name in
  alpha ← float_ parse_float (dict_get old_attr "alpha" (Float 1.0));
  beta ← float_ parse_float (dict_get old_attr "beta" (Float 1.0));
  transA ← int_ parse_int (dict_get old_attr "transA" (Int 0));
  transB ← int_ parse_int (dict_get old_attr "transB" (Int 0));
  inputs ← (if decide (transA ≠ 0)
            then a ← Py.getitem inputs 0; setitem inputs 0 (mx.transpose a [1; 0])
            else Ok inputs);
  inputs ← (if decide (transB = 0)
            then b ← Py.getitem inputs 1; setitem inputs 1 (mx.transpose b [1; 0])
            else Ok inputs);
  a ← Py.getitem inputs 0;
  b ← Py.getitem inputs 1;
  c ← Py.getitem inputs 2;
  let new_inputs := [mx._MulScalar a alpha; b; mx._MulScalar c beta] in
  bias ← match mx.name c with
         | Some n => dict_getitem (_params self) n
         | None => Raise (KeyError None)
         end;
  num_hidden ← Py.getitem (mx.shape bias) 0;
  Ok (op, new_inputs, {["num_hidden" := Int num_hidden]}).

(** *** [from_onnx] *)

(** First loop: [for init_tensor in graph.initializer]. *)
Definition load_initializer (self : GraphProto) (init_tensor : onnx.TensorProto)
  : result GraphProto :=
  if decide (strip (onnx.tensor_name init_tensor) = "")
  then Raise (ValueError "Tensor's name is required.")
  else
    a ← _parse_array init_tensor;
    Ok {| _nodes := _nodes self;
          _params := <[onnx.tensor_name init_tensor := a]> (_params self);
          _renames := _renames self;
          _num_input := _num_input self;
          _num_param := _num_param self |}.

(** Second loop: [for i in graph.input].  It raises nothing. *)
Definition rename_input (self : GraphProto) (i : onnx.ValueInfoProto) : GraphProto :=
  let i_name := onnx.value_name i in
  match _params self !! i_name with
  | Some p =>
      (* i is a param instead of input *)
      let name_param := "param_" +:+ pretty (_num_param self) in
      let params := <[name_param := p]> (delete i_name (_params self)) in
      {| _nodes := <[name_param := mx.Variable_ name_param (Some (mx.shape p))]> (_nodes self);
         _params := params;
         _renames := <[i_name := name_param]> (_renames self);
         _num_input := _num_input self;
         _num_param := S (_num_param self) |}
  | None =>
      let name_input := "input_" +:+ pretty (_num_input self) in
      {| _nodes := <[name_input := mx.Variable_ name_input None]> (_nodes self);
         _params := _params self;
         _renames := <[i_name := name_input]> (_renames self);
         _num_input := S (_num_input self);
         _num_param := _num_param self |}
  end.

Definition rename_inputs (self : GraphProto) (inputs : list onnx.ValueInfoProto)
  : GraphProto :=
  foldl rename_input self inputs.

(** The state once the initializers and the inputs of [graph] are read. *)
Definition ingest (self : GraphProto) (graph : onnx.GraphProto) : result GraphProto :=
  self ← for_each load_initializer self (onnx.initializer graph);
  Ok (rename_inputs self (onnx.graph_input graph)).

(** [[self._nodes[self._renames.get(i, i)] for i in node_input]] *)
Fixpoint resolve_inputs (self : GraphProto) (node_input : list string)
  : result (list mx.Symbol) :=
  match node_input with
  | [] => Ok []
  | i :: rest =>
      x ← dict_getitem (_nodes self) (dict_get (_renames self) i i);
      xs ← resolve_inputs self rest;
      Ok (x :: xs)
  end.

(** [new_op(name=node_name, *inputs, **new_attr)]: calling [None], or passing
    [name] twice, is a [TypeError]; MXNet's own validation of the keyword
    arguments is not modelled. *)
Definition call_op (new_op : option string) (node_name : option string)
    (inputs : list mx.Symbol) (new_attr : attrs_t) : result mx.Symbol :=
  match new_op with
  | None => Raise TypeError
  | Some op =>
      if decide (is_Some (new_attr !! "name")) then Raise TypeError
      else Ok (mx.apply op node_name inputs new_attr)
  end.

(** [for k, i in zip(list(node_output), range(len(node_output))):
       self._nodes[k] = op[i]] *)
Fixpoint register_outputs (nodes : gmap string mx.Symbol) (op : mx.Symbol)
    (node_output : list string) (i : nat) : gmap string mx.Symbol :=
  match node_output with
  | [] => nodes
  | k :: rest => register_outputs (<[k := mx.getitem op i]> nodes) op rest (S i)
  end.

(** Third loop: the body of [for idx, node in enumerate(graph.node)]. *)
Definition convert_node (graph : onnx.GraphProto) (self : GraphProto) (idx : nat)
    (node : onnx.NodeProto) : result GraphProto :=
  let op_name := onnx.op_type node in
  let node_name := strip (onnx.node_name node) in
  let node_name := if decide (node_name = "") then None else Some node_name in
  attr ← _parse_attr (onnx.attribute node);
  '(new_op, new_attr) ← _convert_operator op_name attr None None;
  inputs ← resolve_inputs self (onnx.input node);
  (* some workarounds for onnx problem *)
  new_attr ← _fix_bias new_op new_attr (length inputs);
  new_attr ← _fix_channels self new_op new_attr (onnx.input node);
  last_node ← Py.getitem (onnx.node graph) (Z.of_nat idx - 1);
  self ← _fix_bias_shape self (onnx.op_type node) (onnx.op_type last_node)
           (onnx.input node);
  (* calling again to get new symbols after some workarounds *)
  inputs ← resolve_inputs self (onnx.input node);
  '(new_op, inputs, new_attr) ←
    (if decide (op_name = "Gemm")
     then _fix_gemm self "FullyConnected" inputs attr
     else Ok (Some new_op, inputs, new_attr));
  op ← call_op new_op node_name inputs new_attr;
  node_output ← _fix_outputs op_name (onnx.output node);
  _ ← assert_ (length node_output = length (list_outputs op))
        "Number of output mismatch {} vs {} in {}.";
  Ok {| _nodes := register_outputs (_nodes self) op node_output 0;
        _params := _params self;
        _renames := _renames self;
        _num_input := _num_input self;
        _num_param := _num_param self |}.

(** [enumerate]: the loop body sees the index of each node. *)
Fixpoint convert_nodes (graph : onnx.GraphProto) (self : GraphProto) (idx : nat)
    (nodes : list onnx.NodeProto) : result GraphProto :=
  match nodes with
  | [] => Ok self
  | node :: rest =>
      self ← convert_node graph self idx node;
      convert_nodes graph self (S idx) rest
  end.

(** [[self._nodes[i.name] for i in graph.output]] *)
Fixpoint collect_outputs (self : GraphProto) (outs : list onnx.ValueInfoProto)
  : result (list mx.Symbol) :=
  match outs with
  | [] => Ok []
  | i :: rest =>
      x ← dict_getitem (_nodes self) (onnx.value_name i);
      xs ← collect_outputs self rest;
      Ok (x :: xs)
  end.

Definition from_onnx (self : GraphProto) (graph : onnx.GraphProto)
  : result (mx.Symbol * gmap string mx.ndarray) :=
  self ← ingest self graph;
  self ← convert_nodes graph self 0 (onnx.node graph);
  (* now return the outputs *)
  out ← collect_outputs self (onnx.graph_output graph);
  out ← (if decide (1 < length out)%nat then Ok (mx.Group out) else Py.getitem out 0);
  Ok (out, _params self).

End Importer.

(** * Vocabulary of the properties *)

(** The docstring of [_fix_bias] calls the flag it sets ['use_bias']: the
    bias is present when [no_bias] is false. *)
Definition use_bias (attrs : attrs_t) : option bool :=
  match attrs !! "no_bias" with
  | Some (Bool b) => Some (negb b)
  | _ => None
  end.

(** A canonical name handed out so far: [input_n] below the input counter,
    or [param_n] below the parameter counter. *)
Definition assigned (self : GraphProto) (v : string) : Prop :=
  (∃ n : nat, (n < _num_input self)%nat ∧ v = "input_" +:+ pretty n)
  ∨ (∃ n : nat, (n < _num_param self)%nat ∧ v = "param_" +:+ pretty n).

(** The invariant of the second loop of [from_onnx], as long as no input
    name repeats: the values of [_renames] are exactly the names handed out,
    no value occurs under two keys, and there are as many keys as names
    handed out. *)
Definition renames_inv (self : GraphProto) : Prop :=
  (∀ v : string, (∃ k, _renames self !! k = Some v) ↔ assigned self v)
  ∧ (∀ k1 k2 v, _renames self !! k1 = Some v → _renames self !! k2 = Some v → k1 = k2)
  ∧ size (_renames self) = (_num_input self + _num_param self)%nat.

(** The shapes of an attribute message: no scalar field set, no list field
    populated, no tensor or sub-graph carried. *)
Definition no_scalar_field (a : onnx.AttributeProto) : Prop :=
  onnx.f a = None ∧ onnx.i a = None ∧ onnx.s a = None.

Definition no_list_field (a : onnx.AttributeProto) : Prop :=
  onnx.floats a = [] ∧ onnx.ints a = [] ∧ onnx.strings a = [].

Definition no_nested_field (a : onnx.AttributeProto) : Prop :=
  onnx.t a = None ∧ onnx.g a = None ∧ onnx.tensors a = [] ∧ onnx.graphs a = [].

(** The scalar field that is set, the later of [f], [i], [s] first. *)
Definition scalar_value (a : onnx.AttributeProto) : option val :=
  match onnx.s a, onnx.i a, onnx.f a with
  | Some x, _, _ => Some (Bytes x)
  | None, Some n, _ => Some (Int n)
  | None, None, Some x => Some (Float x)
  | None, None, None => None
  end.

(** A name of the form the importer gives to parameters. *)
Definition param_name (k : string) : Prop := ∃ n : nat, k = "param_" +:+ pretty n.

(** The invariant of the second loop of [from_onnx] on the tensors, for
    input names [done] read so far out of the initial parameters [P0]: an
    untouched name still holds its initial tensor, canonical names are below
    the counters, an input that named a parameter [p] now finds [p] under
    its canonical name together with a variable of the shape of [p], and any
    other input finds a variable without a shape. *)
Definition weights_inv (P0 : gmap string mx.ndarray) (done : list string)
    (self : GraphProto) : Prop :=
  (∀ k, ¬ param_name k → k ∉ done → _params self !! k = P0 !! k)
  ∧ (∀ n : nat, is_Some (_params self !! ("param_" +:+ pretty n)) →
       (n < _num_param self)%nat)
  ∧ (∀ n : nat, is_Some (_nodes self !! ("param_" +:+ pretty n)) →
       (n < _num_param self)%nat)
  ∧ (∀ n : nat, is_Some (_nodes self !! ("input_" +:+ pretty n)) →
       (n < _num_input self)%nat)
  ∧ (∀ k p, k ∈ done → P0 !! k = Some p →
       ∃ n : nat,
         _renames self !! k = Some ("param_" +:+ pretty n)
         ∧ _params self !! ("param_" +:+ pretty n) = Some p
         ∧ _nodes self !! ("param_" +:+ pretty n)
           = Some (mx.Variable_ ("param_" +:+ pretty n) (Some (mx.shape p))))
  ∧ (∀ k, k ∈ done → P0 !! k = None →
       ∃ n : nat,
         _renames self !! k = Some ("input_" +:+ pretty n)
         ∧ _nodes self !! ("input_" +:+ pretty n)
           = Some (mx.Variable_ ("input_" +:+ pretty n) None)).

(** ** Sample tables and graphs

    [import_helper] and MXNet are outside this file; the samples below fix a
    small registry and translation table to run the importer on. *)
Module Examples.

Definition registry : list string :=
  ["Activation"; "Dropout"; "Flatten"; "broadcast_add"].

Definition identity_list : list string := ["Dropout"; "Flatten"].

Definition rename_to (op : string) : converter := λ attrs, Ok (op, attrs).

Definition convert_map : gmap string converter :=
  <["Add" := rename_to "broadcast_add"]>
    (<["Conv" := rename_to "Convolution"]>
       (<["Gemm" := rename_to "FullyConnected"]> ∅)).

(** The decoder returns a tensor of the declared dimensions. *)
Definition to_array (t : onnx.TensorProto) : result mx.ndarray :=
  Ok {| mx.shape := onnx.dims t; mx.buffer := [] |}.

Definition list_outputs (s : mx.Symbol) : list string := ["output"].

Definition parse_float (s : string) : option float := None.
Definition parse_int (s : string) : option Z := None.

Definition value (name : string) : onnx.ValueInfoProto :=
  {| onnx.value_name := name |}.

Definition tensor (name : string) (dims : list Z) : onnx.TensorProto :=
  {| onnx.tensor_name := name; onnx.dims := dims; onnx.raw_data := "" |}.

Definition op_node (op : string) (inputs outputs : list string) : onnx.NodeProto :=
  {| onnx.op_type := op; onnx.node_name := ""; onnx.input := inputs;
     onnx.output := outputs; onnx.attribute := [] |}.

(** The same input name declared twice. *)
Definition duplicate_input_graph : onnx.GraphProto :=
  {| onnx.initializer := []; onnx.graph_input := [value "x"; value "x"];
     onnx.graph_output := []; onnx.node := [] |}.

(** An input and two initializers, all declared as inputs. *)
Definition three_input_graph : onnx.GraphProto :=
  {| onnx.initializer := [tensor "w" [10; 5]; tensor "b" [10]];
     onnx.graph_input := [value "x"; value "w"; value "b"];
     onnx.graph_output := []; onnx.node := [] |}.




(** A convolution whose weight is computed by an earlier node. *)
Definition computed_weight_graph : onnx.GraphProto :=
  {| onnx.initializer := []; onnx.graph_input := [value "x"];
     onnx.graph_output := [value "z"];
     onnx.node := [op_node "Flatten" ["x"] ["y"]; op_node "Conv" ["x"; "y"] ["z"]] |}.

(** A state with a registered weight of shape (10, 5) and a bias of shape (8,). *)
Definition dense_state : GraphProto :=
  {| _nodes := ∅;
     _params := <["param_0" := {| mx.shape := [10; 5]; mx.buffer := [] |}]>
                  (<["param_1" := {| mx.shape := [8]; mx.buffer := [] |}]>
                     (<["param_2" := {| mx.shape := [16]; mx.buffer := [] |}]>
                        (<["param_3" := {| mx.shape := [4; 4] ; mx.buffer := [] |}]> ∅)));
     _renames := <["w" := "param_0"]> (<["c" := "param_1"]>
                   (<["b" := "param_2"]> (<["m" := "param_3"]> ∅)));
     _num_input := 0; _num_param := 4 |}.

(** An attribute message without tensor or sub-graph. *)
Definition attr (name : string) (f : option float) (i : option Z) (s : option string)
    (floats : list float) (ints : list Z) (strings : list string)
  : onnx.AttributeProto :=
  {| onnx.attr_name := name; onnx.f := f; onnx.i := i; onnx.s := s;
     onnx.floats := floats; onnx.ints := ints; onnx.strings := strings;
     onnx.t := None; onnx.g := None; onnx.tensors := []; onnx.graphs := [] |}.

Definition kernel_attr : onnx.AttributeProto :=
  attr "kernel_shape" None None None [] [3; 3] [].
Definition group_attr : onnx.AttributeProto :=
  attr "group" None (Some 1) None [] [] [].
Definition blank_attr (name : string) : onnx.AttributeProto :=
  attr name None None None [] [] [].

(** The state a computation that returns ends in. *)
Definition state_of (r : result GraphProto) : GraphProto :=
  match r with
  | Ok self => self
  | Raise _ => __init__
  end.

(** A state whose [_renames] points to a name that is no parameter. *)
Definition dangling_state : GraphProto :=
  {| _nodes := ∅; _params := ∅; _renames := <["w" := "param_9"]> ∅;
     _num_input := 0; _num_param := 0 |}.

(** A convolution followed by the add of its bias. *)
Definition conv_bias_graph : onnx.GraphProto :=
  {| onnx.initializer := [tensor "w" [16; 3; 3; 3]; tensor "b" [16]];
     onnx.graph_input := [value "x"; value "w"; value "b"];
     onnx.graph_output := [value "y"];
     onnx.node := [op_node "Conv" ["x"; "w"] ["c"]; op_node "Add" ["c"; "b"] ["y"]] |}.

Definition conv_bias_ingested : GraphProto :=
  state_of (ingest to_array __init__ conv_bias_graph).

Definition conv_bias_converted : GraphProto :=
  state_of (convert_nodes identity_list convert_map registry list_outputs
              parse_float parse_int conv_bias_graph conv_bias_ingested 0
              (onnx.node conv_bias_graph)).

Definition conv_bias_output : mx.Symbol :=
  mx.getitem
    (mx.apply "broadcast_add" None
       [ mx.getitem
           (mx.apply "Convolution" None
              [ mx.Variable_ "input_0" None;
                mx.Variable_ "param_0" (Some [16; 3; 3; 3]) ]
              (<["no_bias" := Bool true]> (<["num_filter" := Int 16]> ∅))) 0;
         mx.Variable_ "param_1" (Some [1; 16; 1; 1]) ]
       ∅) 0.

Definition conv_bias_params : gmap string mx.ndarray :=
  <["param_0" := {| mx.shape := [16; 3; 3; 3]; mx.buffer := [] |}]>
    (<["param_1" := {| mx.shape := [1; 16; 1; 1]; mx.buffer := [] |}]> ∅).

(** A convolution followed by the add of two activations. *)
Definition residual_graph : onnx.GraphProto :=
  {| onnx.initializer := [tensor "w" [16; 3; 3; 3]];
     onnx.graph_input := [value "x"; value "w"];
     onnx.graph_output := [value "y"];
     onnx.node := [op_node "Conv" ["x"; "w"] ["c"]; op_node "Add" ["c"; "x"] ["y"]] |}.

Definition residual_after_conv : GraphProto :=
  state_of (convert_node identity_list convert_map registry list_outputs
              parse_float parse_int residual_graph
              (state_of (ingest to_array __init__ residual_graph)) 0
              (op_node "Conv" ["x"; "w"] ["c"])).

(** A single Gemm with its weight and bias. *)
Definition gemm_node : onnx.NodeProto := op_node "Gemm" ["x"; "w"; "c"] ["y"].

Definition gemm_graph : onnx.GraphProto :=
  {| onnx.initializer := [tensor "w" [8; 4]; tensor "c" [8]];
     onnx.graph_input := [value "x"; value "w"; value "c"];
     onnx.graph_output := [value "y"];
     onnx.node := [gemm_node] |}.

Definition gemm_ingested : GraphProto :=
  state_of (ingest to_array __init__ gemm_graph).

Definition gemm_converted : GraphProto :=
  state_of (convert_node identity_list convert_map registry list_outputs
              parse_float parse_int gemm_graph gemm_ingested 0 gemm_node).

(** The inputs of a Gemm in [dense_state], and what [_fix_gemm] makes of
    them for [alpha = 2.0] and [transA = 1]. *)
Definition gemm_inputs : list mx.Symbol :=
  [ mx.Variable_ "input_0" None; mx.Variable_ "param_0" (Some [10; 5]);
    mx.Variable_ "param_1" (Some [8]) ].

Definition gemm_new_inputs : list mx.Symbol :=
  [ mx._MulScalar (mx.transpose (mx.Variable_ "input_0" None) [1; 0]) 2.0;
    mx.transpose (mx.Variable_ "param_0" (Some [10; 5])) [1; 0];
    mx._MulScalar (mx.Variable_ "param_1" (Some [8])) 1.0 ].

(** The parameters of [three_input_graph] once its initializers are loaded. *)
Definition three_input_loaded : GraphProto :=
  state_of (for_each (load_initializer to_array) __init__
              (onnx.initializer three_input_graph)).









End Examples.


(** * Properties of the importer *)

Section Facts.

#[local] Set Default Proof Using "Type".

Variable _identity_list : list string.
Variable _convert_map : gmap string converter.
Variable mx_registry : list string.
Variable to_array : onnx.TensorProto → result mx.ndarray.
Variable list_outputs : mx.Symbol → list string.
Variable parse_float : string → option float.
Variable parse_int : string → option Z.

Local Abbreviation convert_operator := (_convert_operator _identity_list _convert_map mx_registry).
Local Abbreviation fix_gemm := (_fix_gemm mx_registry parse_float parse_int).

(** ** Plumbing *)

Lemma bind_Ok {A B} (k : A → result B) (a : A) : (Ok a ≫= k) = k a.
Proof. done. Qed.

Lemma bind_Raise {A B} (k : A → result B) (e : exn) : (Raise e ≫= k) = Raise e.
Proof. done. Qed.


Lemma assert_true (P : Prop) `{Decision P} (msg : string) :
  P → assert_ P msg = Ok tt.
Proof. intros HP. unfold assert_. by rewrite decide_True. Qed.

Lemma assert_false (P : Prop) `{Decision P} (msg : string) :
  ¬ P → assert_ P msg = Raise (AssertionError msg).
Proof. intros HP. unfold assert_. by rewrite decide_False. Qed.

Lemma getitem_lookup {A} (l : list A) (i : Z) (x : A) :
  0 ≤ i → l !! Z.to_nat i = Some x → Py.getitem l i = Ok x.
Proof.
  intros Hi Hl. unfold Py.getitem. cbv zeta.
  rewrite (decide_False (P := i < 0)) by lia.
  rewrite decide_False by lia.
  by rewrite Hl.
Qed.


(** ** The bias-presence workaround *)

Lemma fix_bias_other_op (op : string) (attrs : attrs_t) (num_inputs : nat) :
  op ∉ conv_family → _fix_bias op attrs num_inputs = Ok attrs.
Proof. intros Hop. unfold _fix_bias. by rewrite decide_True. Qed.

(** C6.  For an operator of the family Convolution / Deconvolution /
    FullyConnected, [_fix_bias] records that the bias is present
    ([no_bias = False]) for exactly 3 inputs, that it is absent
    ([no_bias = True]) for exactly 2, and raises the [ValueError] on the
    number of inputs for any other count; for an operator outside the family
    it returns the attributes unchanged. *)
Theorem fix_bias_spec (op : string) (attrs : attrs_t) (num_inputs : nat) :
  (op ∈ conv_family → num_inputs = 3%nat →
     _fix_bias op attrs num_inputs = Ok (<["no_bias" := Bool false]> attrs)
     ∧ use_bias (<["no_bias" := Bool false]> attrs) = Some true)
  ∧ (op ∈ conv_family → num_inputs = 2%nat →
     _fix_bias op attrs num_inputs = Ok (<["no_bias" := Bool true]> attrs)
     ∧ use_bias (<["no_bias" := Bool true]> attrs) = Some false)
  ∧ (op ∈ conv_family → num_inputs ≠ 3%nat → num_inputs ≠ 2%nat →
     _fix_bias op attrs num_inputs
     = Raise (ValueError "Unexpected number of inputs for: {}"))
  ∧ (op ∉ conv_family → _fix_bias op attrs num_inputs = Ok attrs).
Proof.
  split_and!; [unfold _fix_bias, use_bias..|].
  - intros Hop ->. rewrite lookup_insert_eq.
    by rewrite decide_False by (intros Hn; by apply Hn).
  - intros Hop ->. rewrite lookup_insert_eq.
    by rewrite decide_False by (intros Hn; by apply Hn).
  - intros Hop H3 H2. rewrite decide_False by (intros Hn; by apply Hn).
    by rewrite !decide_False.
  - apply fix_bias_other_op.
Qed.

(** ** The multi-output workaround *)

(** C8.  For a ['Dropout'] node [_fix_outputs] fails its assertion unless
    the node declares exactly 2 outputs, and otherwise returns the first
    declared output alone; so of the outputs ["y"; "mask"] only ["y"] is
    registered in [_nodes].  The outputs of any other operator pass through
    unchanged. *)
Theorem fix_outputs_spec (op : string) (outputs : list string) :
  (op = "Dropout" → length outputs ≠ 2%nat →
     _fix_outputs op outputs
     = Raise (AssertionError "ONNX have two outputs for dropout layer."))
  ∧ (op = "Dropout" → ∀ y mask, outputs = [y; mask] →
     _fix_outputs op outputs = Ok [y])
  ∧ (op ≠ "Dropout" → _fix_outputs op outputs = Ok outputs)
  ∧ (∀ (nodes : gmap string mx.Symbol) (sym : mx.Symbol),
       (node_output ← _fix_outputs "Dropout" ["y"; "mask"];
        Ok (register_outputs nodes sym node_output 0))
       = Ok (<["y" := mx.getitem sym 0]> nodes)).
Proof.
  unfold _fix_outputs. split_and!.
  - intros -> Hlen. rewrite decide_True by done.
    by rewrite assert_false.
  - intros -> y mask ->. by rewrite decide_True.
  - intros Hop. by rewrite decide_False.
  - done.
Qed.

(** ** The channel-count workaround *)

Lemma fix_channels_other_op (self : GraphProto) (op : string) (attrs : attrs_t)
    (inputs : list string) :
  op ∉ conv_family → _fix_channels self op attrs inputs = Ok attrs.
Proof. intros Hop. unfold _fix_channels. by rewrite decide_True. Qed.

(** The second input is a key of [_renames], but its canonical name is not a
    key of [_params]: the [ValueError] of the source. *)
Lemma fix_channels_missing_param (self : GraphProto) (op : string) (attrs : attrs_t)
    (inputs : list string) (i1 weight_name : string) :
  op ∈ conv_family →
  inputs !! 1%nat = Some i1 →
  _renames self !! i1 = Some weight_name →
  _params self !! weight_name = None →
  _fix_channels self op attrs inputs
  = Raise (ValueError "Unable to get channels/units attr from onnx graph.").
Proof.
  intros Hop Hi1 Hren Hpar. unfold _fix_channels.
  rewrite decide_False by (intros Hn; by apply Hn).
  rewrite (getitem_lookup inputs 1 i1) by (done || lia). simpl.
  unfold dict_getitem. rewrite Hren. simpl. by rewrite Hpar.
Qed.

(** The weight is a parameter of rank below 2: the assertion fails. *)
Lemma fix_channels_low_rank (self : GraphProto) (op : string) (attrs : attrs_t)
    (inputs : list string) (i1 weight_name : string) (w : mx.ndarray) :
  op ∈ conv_family →
  inputs !! 1%nat = Some i1 →
  _renames self !! i1 = Some weight_name →
  _params self !! weight_name = Some w →
  (length (mx.shape w) < 2)%nat →
  _fix_channels self op attrs inputs
  = Raise (AssertionError "Weights shape is invalid: {}").
Proof.
  intros Hop Hi1 Hren Hpar Hrank. unfold _fix_channels.
  rewrite decide_False by (intros Hn; by apply Hn).
  rewrite (getitem_lookup inputs 1 i1) by (done || lia). simpl.
  unfold dict_getitem. rewrite Hren. simpl. rewrite Hpar.
  rewrite assert_false by lia. done.
Qed.

(** The second input is not a key of [_renames]: the subscript
    [self._renames[inputs[1]]] raises [KeyError], and the [ValueError] of
    the source is never reached. *)
Lemma fix_channels_unmapped (self : GraphProto) (op : string) (attrs : attrs_t)
    (inputs : list string) (i1 : string) :
  op ∈ conv_family →
  inputs !! 1%nat = Some i1 →
  _renames self !! i1 = None →
  _fix_channels self op attrs inputs = Raise (KeyError (Some i1)).
Proof.
  intros Hop Hi1 Hren. unfold _fix_channels.
  rewrite decide_False by (intros Hn; by apply Hn).
  rewrite (getitem_lookup inputs 1 i1) by (done || lia). simpl.
  unfold dict_getitem. by rewrite Hren.
Qed.

(** C1.  The code at the failing input: a Convolution whose weight ["y"] is
    not a graph input (so not a key of [_renames]) makes [_fix_channels]
    raise [KeyError], not the [ValueError] that reports a missing weight
    parameter. *)
Theorem fix_channels_unmapped_weight_raises_KeyError (attrs : attrs_t) :
  _fix_channels
    {| _nodes := {["input_0" := mx.Variable_ "input_0" None]};
       _params := ∅;
       _renames := {["x" := "input_0"]};
       _num_input := 1;
       _num_param := 0 |}
    "Convolution" attrs ["x"; "y"]
  = Raise (KeyError (Some "y")).
Proof.
  apply fix_channels_unmapped.
  - compute_done.
  - done.
  - done.
Qed.


(** ** The attribute parser *)

(** A scalar field and a list field of one attribute are both set: the
    assertion of the list loop fails. *)
Lemma parse_attr_scalar_and_list (name : string) (n : Z) (ns : list Z) (z : Z) :
  _parse_attr
    [ {| onnx.attr_name := name; onnx.f := None; onnx.i := Some n; onnx.s := None;
         onnx.floats := []; onnx.ints := z :: ns; onnx.strings := [];
         onnx.t := None; onnx.g := None; onnx.tensors := []; onnx.graphs := [] |} ]
  = Raise (AssertionError "Only one type of attr is allowed").
Proof.
  unfold _parse_attr. simpl. unfold _parse_attr_step. simpl.
  rewrite assert_false; [done|]. unfold parse_attr_scalar.
  by rewrite lookup_insert_eq.
Qed.

(** C2.  The code at the failing input: an attribute with both its float
    field [f] and its int field [i] set is parsed without an error, and the
    int silently wins. *)
Theorem parse_attr_two_scalars_accepted :
  _parse_attr
    [ {| onnx.attr_name := "alpha"; onnx.f := Some 1.0%float; onnx.i := Some 2;
         onnx.s := None; onnx.floats := []; onnx.ints := []; onnx.strings := [];
         onnx.t := None; onnx.g := None; onnx.tensors := []; onnx.graphs := [] |} ]
  = Ok {["alpha" := Int 2]}.
Proof. vm_compute. reflexivity. Qed.

(** ** Operator translation *)

Lemma convert_operator_unknown_target (op_name : string) (attrs : attrs_t)
    (identity_list : option (list string))
    (convert_map : option (gmap string converter)) :
  op_name ∈ list_or_default identity_list _identity_list →
  op_name ∉ mx_sym_dir mx_registry →
  convert_operator op_name attrs identity_list convert_map
  = Raise (RuntimeError "Unable to map op_name {} to sym").
Proof.
  intros Hid Hmx. unfold _convert_operator, getattr_mx_sym.
  rewrite decide_True by done. simpl. by rewrite decide_False.
Qed.

(** C9.  An operator name of the identity list that names an operator of
    [mx.sym] is translated to that operator, and the attributes are returned
    unchanged. *)
Theorem convert_operator_identity (op_name : string) (attrs : attrs_t)
    (identity_list : option (list string))
    (convert_map : option (gmap string converter)) :
  op_name ∈ list_or_default identity_list _identity_list →
  op_name ∈ mx_sym_dir mx_registry →
  convert_operator op_name attrs identity_list convert_map = Ok (op_name, attrs).
Proof.
  intros Hid Hmx. unfold _convert_operator, getattr_mx_sym.
  rewrite decide_True by done. simpl. by rewrite decide_True.
Qed.

(** ** The bias-shape workaround *)

Lemma fix_bias_shape_not_triggered (self : GraphProto) (op_name last_op_name : string)
    (inputs : list string) :
  ¬ (op_name = "Add" ∧ last_op_name = "Conv") →
  _fix_bias_shape self op_name last_op_name inputs = Ok self.
Proof. intros Hno. unfold _fix_bias_shape. by rewrite decide_False. Qed.

(** [reshape((1, -1, 1, 1))] of a vector. *)
Lemma reshape_vector (a : mx.ndarray) (C : Z) :
  mx.shape a = [C] →
  mx.reshape a [1; -1; 1; 1]
  = Ok {| mx.shape := [1; C; 1; 1]; mx.buffer := mx.buffer a |}.
Proof.
  intros Ha. unfold mx.reshape, mx.size. rewrite Ha.
  change (filter (λ d, d < 0) [1; -1; 1; 1]) with [-1].
  change (filter (λ d, 0 ≤ d) [1; -1; 1; 1]) with [1; 1; 1].
  simpl foldr. change (1 * (1 * (1 * 1))) with 1.
  rewrite Z.mul_1_r, Z.mod_1_r, Z.div_1_r.
  rewrite decide_False by lia. done.
Qed.

(** The add has 2 inputs and the second names a parameter of shape (C,). *)
Lemma fix_bias_shape_vector (self : GraphProto) (x b : string) (bias : mx.ndarray)
    (C : Z) :
  _params self !! dict_get (_renames self) b b = Some bias →
  mx.shape bias = [C] →
  _fix_bias_shape self "Add" "Conv" [x; b]
  = Ok {| _nodes := <[dict_get (_renames self) b b :=
                        mx.Variable_ (dict_get (_renames self) b b) (Some [1; C; 1; 1])]>
                      (_nodes self);
          _params := <[dict_get (_renames self) b b :=
                         {| mx.shape := [1; C; 1; 1]; mx.buffer := mx.buffer bias |}]>
                       (_params self);
          _renames := _renames self;
          _num_input := _num_input self;
          _num_param := _num_param self |}.
Proof.
  intros Hbias HC. unfold _fix_bias_shape. rewrite decide_True by done.
  rewrite (getitem_lookup [x; b] 1 b) by (done || lia).
  rewrite assert_true by done. simpl.
  unfold dict_getitem. rewrite Hbias. simpl.
  rewrite assert_true by (by rewrite HC). simpl.
  by rewrite (reshape_vector bias C HC).
Qed.

(** The add has 2 inputs and the second does not name a parameter (the sum
    of two activations, say): the subscript [self._params[bias_name]]
    raises [KeyError]. *)
Lemma fix_bias_shape_not_a_parameter (self : GraphProto) (x b : string) :
  _params self !! dict_get (_renames self) b b = None →
  _fix_bias_shape self "Add" "Conv" [x; b]
  = Raise (KeyError (Some (dict_get (_renames self) b b))).
Proof.
  intros Hbias. unfold _fix_bias_shape. rewrite decide_True by done.
  rewrite (getitem_lookup [x; b] 1 b) by (done || lia).
  rewrite assert_true by done. simpl.
  unfold dict_getitem. by rewrite Hbias.
Qed.

(** C4.  For an ['Add'] that follows a ['Conv'] in node order,
    [_fix_bias_shape] fails its assertion unless the add has exactly 2
    inputs; with 2 inputs whose second one resolves to a parameter, it fails
    its assertion unless the parameter has rank 1, and for a parameter of
    shape (C,) it stores the parameter reshaped to (1, C, 1, 1) and replaces
    its variable node by one that carries the new shape. *)
Theorem fix_bias_shape_spec (self : GraphProto) (inputs : list string) :
  (length inputs ≠ 2%nat →
     _fix_bias_shape self "Add" "Conv" inputs = Raise (AssertionError ""))
  ∧ (∀ (x b : string) (bias : mx.ndarray),
       inputs = [x; b] →
       _params self !! dict_get (_renames self) b b = Some bias →
       (length (mx.shape bias) ≠ 1%nat →
          _fix_bias_shape self "Add" "Conv" inputs = Raise (AssertionError ""))
       ∧ (∀ C : Z, mx.shape bias = [C] →
            let bias_name := dict_get (_renames self) b b in
            let reshaped := {| mx.shape := [1; C; 1; 1]; mx.buffer := mx.buffer bias |} in
            _fix_bias_shape self "Add" "Conv" inputs
            = Ok {| _nodes := <[bias_name := mx.Variable_ bias_name (Some [1; C; 1; 1])]>
                                (_nodes self);
                    _params := <[bias_name := reshaped]> (_params self);
                    _renames := _renames self;
                    _num_input := _num_input self;
                    _num_param := _num_param self |})).
Proof.
  split.
  - intros Hlen. unfold _fix_bias_shape. rewrite decide_True by done.
    by rewrite assert_false.
  - intros x b bias -> Hbias. split.
    + intros Hrank. unfold _fix_bias_shape. rewrite decide_True by done.
      rewrite (getitem_lookup [x; b] 1 b) by (done || lia).
      rewrite assert_true by done. simpl.
      unfold dict_getitem. rewrite Hbias. simpl.
      by rewrite assert_false.
    + intros C HC. cbv zeta. by apply fix_bias_shape_vector.
Qed.

(** ** The Gemm workaround *)

Lemma fix_gemm_result (self : GraphProto) (op_name : string)
    (a b c : mx.Symbol) (rest : list mx.Symbol)
    (bias_name : string) (bias : mx.ndarray) (d : Z) (ds : list Z)
    (old_attr : attrs_t) (alpha beta : float) (transA transB : Z) :
  mx.name c = Some bias_name →
  _params self !! bias_name = Some bias →
  mx.shape bias = d :: ds →
  float_ parse_float (default (Float 1.0) (old_attr !! "alpha")) = Ok alpha →
  float_ parse_float (default (Float 1.0) (old_attr !! "beta")) = Ok beta →
  int_ parse_int (default (Int 0) (old_attr !! "transA")) = Ok transA →
  int_ parse_int (default (Int 0) (old_attr !! "transB")) = Ok transB →
  fix_gemm self op_name (a :: b :: c :: rest) old_attr
  = Ok (getattr_mx_sym mx_registry op_name,
        [ mx._MulScalar (if decide (transA ≠ 0) then mx.transpose a [1; 0] else a) alpha;
          (if decide (transB = 0) then mx.transpose b [1; 0] else b);
          mx._MulScalar c beta ],
        {["num_hidden" := Int d]}).
Proof.
  intros Hname Hbias Hshape Halpha Hbeta HtA HtB.
  unfold _fix_gemm, dict_get.
  rewrite Halpha, Hbeta, HtA, HtB. simpl.
  destruct (decide (transA ≠ 0)) as [HA|HA];
    destruct (decide (transB = 0)) as [HB|HB]; simpl;
    rewrite Hname; unfold dict_getitem; rewrite Hbias; simpl;
    rewrite Hshape; by rewrite (getitem_lookup (d :: ds) 0 d) by (done || lia).
Qed.

(** X29.  [_fix_gemm] on inputs A, B, C whose third one is named after a
    parameter (the bias): A is transposed iff [transA] is non-zero, B is
    transposed iff [transB] is zero, A is multiplied by [alpha] and C by
    [beta], and [num_hidden] is the leading dimension of the bias; an absent
    attribute counts as [alpha = 1.0], [beta = 1.0], [transA = 0],
    [transB = 0].  With [alpha = 2.0], [beta = 1.0], [transA = transB = 0]
    and a bias of shape (8,), [num_hidden] is 8 and the first input is A
    multiplied by 2. *)
Theorem fix_gemm_spec (self : GraphProto) (op_name : string)
    (a b c : mx.Symbol) (rest : list mx.Symbol)
    (bias_name : string) (bias : mx.ndarray) (d : Z) (ds : list Z) :
  mx.name c = Some bias_name →
  _params self !! bias_name = Some bias →
  mx.shape bias = d :: ds →
  (∀ (old_attr : attrs_t) (alpha beta : float) (transA transB : Z),
     float_ parse_float (default (Float 1.0) (old_attr !! "alpha")) = Ok alpha →
     float_ parse_float (default (Float 1.0) (old_attr !! "beta")) = Ok beta →
     int_ parse_int (default (Int 0) (old_attr !! "transA")) = Ok transA →
     int_ parse_int (default (Int 0) (old_attr !! "transB")) = Ok transB →
     fix_gemm self op_name (a :: b :: c :: rest) old_attr
     = Ok (getattr_mx_sym mx_registry op_name,
           [ mx._MulScalar (if decide (transA ≠ 0) then mx.transpose a [1; 0] else a) alpha;
             (if decide (transB = 0) then mx.transpose b [1; 0] else b);
             mx._MulScalar c beta ],
           {["num_hidden" := Int d]}))
  ∧ fix_gemm self op_name (a :: b :: c :: rest) ∅
    = Ok (getattr_mx_sym mx_registry op_name,
          [ mx._MulScalar a 1.0; mx.transpose b [1; 0]; mx._MulScalar c 1.0 ],
          {["num_hidden" := Int d]})
  ∧ (ds = [] → d = 8 →
     fix_gemm self "FullyConnected" (a :: b :: c :: rest)
       (<["alpha" := Float 2.0]> (<["beta" := Float 1.0]>
          (<["transA" := Int 0]> (<["transB" := Int 0]> ∅))))
     = Ok (Some "FullyConnected",
           [ mx._MulScalar a 2.0; mx.transpose b [1; 0]; mx._MulScalar c 1.0 ],
           {["num_hidden" := Int 8]})).
Proof.
  intros Hname Hbias Hshape. split_and!.
  - intros old_attr alpha beta transA transB Halpha Hbeta HtA HtB.
    by apply (fix_gemm_result self op_name a b c rest bias_name bias d ds).
  - by rewrite (fix_gemm_result self op_name a b c rest bias_name bias d ds
                  ∅ 1.0%float 1.0%float 0 0).
  - intros -> ->.
    by rewrite (fix_gemm_result self "FullyConnected" a b c rest bias_name bias 8 []
               _ 2.0%float 1.0%float 0 0).
Qed.

(** ** Ingestion: the canonical names *)

Lemma input_name_ne_param_name (n m : nat) :
  "input_" +:+ pretty n ≠ "param_" +:+ pretty m.
Proof. simpl. discriminate. Qed.

Lemma input_name_inj (n m : nat) :
  "input_" +:+ pretty n = "input_" +:+ pretty m → n = m.
Proof. simpl. intros Heq. simplify_eq. by apply (inj pretty). Qed.

Lemma param_name_inj (n m : nat) :
  "param_" +:+ pretty n = "param_" +:+ pretty m → n = m.
Proof. simpl. intros Heq. simplify_eq. by apply (inj pretty). Qed.

(** Loading the initializers touches [_params] only. *)
Lemma load_initializers_renames (self self' : GraphProto)
    (inits : list onnx.TensorProto) :
  for_each (load_initializer to_array) self inits = Ok self' →
  _renames self' = _renames self
  ∧ _num_input self' = _num_input self
  ∧ _num_param self' = _num_param self.
Proof.
  revert self. induction inits as [|t inits IH]; intros self Hrun; simpl in Hrun.
  - by simplify_eq.
  - destruct (load_initializer to_array self t) as [self1|e] eqn:Hstep;
      simpl in Hrun; [|done].
    destruct (IH self1 Hrun) as (Hr & Hi & Hp).
    unfold load_initializer in Hstep.
    destruct (decide (strip (onnx.tensor_name t) = "")); [done|].
    destruct (_parse_array to_array t); simpl in Hstep; [|done].
    simplify_eq. by simpl in *.
Qed.

Lemma renames_inv_fresh (self : GraphProto) :
  _renames self = ∅ → _num_input self = 0%nat → _num_param self = 0%nat →
  renames_inv self.
Proof.
  intros Hr Hi Hp. unfold renames_inv, assigned. rewrite Hr, Hi, Hp. split_and!.
  - intros v. split.
    + intros [k Hk]. by rewrite lookup_empty in Hk.
    + intros [(n & Hn & _)|(n & Hn & _)]; lia.
  - intros k1 k2 v Hk. by rewrite lookup_empty in Hk.
  - by rewrite map_size_empty.
Qed.

Lemma rename_input_dom (self : GraphProto) (i : onnx.ValueInfoProto) :
  dom (_renames (rename_input self i)) = {[onnx.value_name i]} ∪ dom (_renames self).
Proof.
  unfold rename_input.
  destruct (_params self !! onnx.value_name i); simpl; by rewrite dom_insert_L.
Qed.

Lemma rename_input_counters (self : GraphProto) (i : onnx.ValueInfoProto) :
  (_num_input (rename_input self i) + _num_param (rename_input self i)
   = S (_num_input self + _num_param self))%nat.
Proof.
  unfold rename_input.
  destruct (_params self !! onnx.value_name i); simpl; lia.
Qed.

Lemma rename_input_inv (self : GraphProto) (i : onnx.ValueInfoProto) :
  _renames self !! onnx.value_name i = None →
  renames_inv self → renames_inv (rename_input self i).
Proof.
  intros Hfresh (Hrange & Hinj & Hsize).
  unfold rename_input.
  destruct (_params self !! onnx.value_name i) as [p|]; unfold renames_inv, assigned;
    simpl; split_and!.
  - intros v. split.
    + intros [k Hk]. destruct (decide (k = onnx.value_name i)) as [->|Hne].
      * rewrite lookup_insert_eq in Hk. simplify_eq. right. eexists. split; [|done]. lia.
      * rewrite lookup_insert_ne in Hk by done.
        destruct (proj1 (Hrange v) (ex_intro _ k Hk)) as [(n & Hn & ->)|(n & Hn & ->)].
        -- left. eauto.
        -- right. exists n. split; [lia|done].
    + intros [(n & Hn & ->)|(n & Hn & ->)].
      * destruct (proj2 (Hrange ("input_" +:+ pretty n))) as [k Hk].
        { left. eauto. }
        exists k. rewrite lookup_insert_ne; [done|]. intros <-. congruence.
      * destruct (decide (n = _num_param self)) as [->|Hne].
        -- exists (onnx.value_name i). by rewrite lookup_insert_eq.
        -- destruct (proj2 (Hrange ("param_" +:+ pretty n))) as [k Hk].
           { right. exists n. split; [lia|done]. }
           exists k. rewrite lookup_insert_ne; [done|]. intros <-. congruence.
  - intros k1 k2 v Hk1 Hk2.
    assert (∀ k, _renames self !! k ≠ Some ("param_" +:+ pretty (_num_param self)))
      as Hnew.
    { intros k Hk.
      destruct (proj1 (Hrange _) (ex_intro _ k Hk)) as [(n & Hn & Heq)|(n & Hn & Heq)].
      - symmetry in Heq. by apply input_name_ne_param_name in Heq.
      - apply param_name_inj in Heq. lia. }
    destruct (decide (k1 = onnx.value_name i)) as [->|Hne1];
      destruct (decide (k2 = onnx.value_name i)) as [->|Hne2]; [done|..].
    + rewrite lookup_insert_eq in Hk1. rewrite lookup_insert_ne in Hk2 by done.
      simplify_eq. by apply Hnew in Hk2.
    + rewrite lookup_insert_eq in Hk2. rewrite lookup_insert_ne in Hk1 by done.
      simplify_eq. by apply Hnew in Hk1.
    + rewrite lookup_insert_ne in Hk1, Hk2 by done. by eapply Hinj.
  - rewrite map_size_insert_None by done. lia.
  - intros v. split.
    + intros [k Hk]. destruct (decide (k = onnx.value_name i)) as [->|Hne].
      * rewrite lookup_insert_eq in Hk. simplify_eq. left. eexists. split; [|done]. lia.
      * rewrite lookup_insert_ne in Hk by done.
        destruct (proj1 (Hrange v) (ex_intro _ k Hk)) as [(n & Hn & ->)|(n & Hn & ->)].
        -- left. exists n. split; [lia|done].
        -- right. eauto.
    + intros [(n & Hn & ->)|(n & Hn & ->)].
      * destruct (decide (n = _num_input self)) as [->|Hne].
        -- exists (onnx.value_name i). by rewrite lookup_insert_eq.
        -- destruct (proj2 (Hrange ("input_" +:+ pretty n))) as [k Hk].
           { left. exists n. split; [lia|done]. }
           exists k. rewrite lookup_insert_ne; [done|]. intros <-. congruence.
      * destruct (proj2 (Hrange ("param_" +:+ pretty n))) as [k Hk].
        { right. eauto. }
        exists k. rewrite lookup_insert_ne; [done|]. intros <-. congruence.
  - intros k1 k2 v Hk1 Hk2.
    assert (∀ k, _renames self !! k ≠ Some ("input_" +:+ pretty (_num_input self)))
      as Hnew.
    { intros k Hk.
      destruct (proj1 (Hrange _) (ex_intro _ k Hk)) as [(n & Hn & Heq)|(n & Hn & Heq)].
      - apply input_name_inj in Heq. lia.
      - by apply input_name_ne_param_name in Heq. }
    destruct (decide (k1 = onnx.value_name i)) as [->|Hne1];
      destruct (decide (k2 = onnx.value_name i)) as [->|Hne2]; [done|..].
    + rewrite lookup_insert_eq in Hk1. rewrite lookup_insert_ne in Hk2 by done.
      simplify_eq. by apply Hnew in Hk2.
    + rewrite lookup_insert_eq in Hk2. rewrite lookup_insert_ne in Hk1 by done.
      simplify_eq. by apply Hnew in Hk1.
    + rewrite lookup_insert_ne in Hk1, Hk2 by done. by eapply Hinj.
  - rewrite map_size_insert_None by done. lia.
Qed.

Lemma rename_inputs_inv (inputs : list onnx.ValueInfoProto) (self : GraphProto) :
  NoDup (onnx.value_name <$> inputs) →
  (∀ i, i ∈ inputs → _renames self !! onnx.value_name i = None) →
  renames_inv self →
  renames_inv (rename_inputs self inputs)
  ∧ dom (_renames (rename_inputs self inputs))
    = list_to_set (onnx.value_name <$> inputs) ∪ dom (_renames self).
Proof.
  unfold rename_inputs. revert self.
  induction inputs as [|i inputs IH]; intros self Hnodup Hfresh Hinv; simpl.
  - split; [done|]. by rewrite (left_id_L ∅ (∪)).
  - rewrite fmap_cons in Hnodup. apply NoDup_cons in Hnodup as [Hi Hnodup].
    destruct (IH (rename_input self i)) as [Hinv' Hdom'].
    + done.
    + intros j Hj. apply not_elem_of_dom. rewrite rename_input_dom.
      apply not_elem_of_union. split.
      * apply not_elem_of_singleton. intros Heq. apply Hi. rewrite <- Heq.
        by apply list_elem_of_fmap_2.
      * apply not_elem_of_dom. apply Hfresh. by right.
    + apply rename_input_inv; [|done]. apply Hfresh. by left.
    + split; [done|]. rewrite Hdom', rename_input_dom.
      rewrite (assoc_L (∪)). f_equal. apply (comm_L (∪)).
Qed.

Lemma rename_inputs_counters (inputs : list onnx.ValueInfoProto) (self : GraphProto) :
  (_num_input (rename_inputs self inputs) + _num_param (rename_inputs self inputs)
   = length inputs + (_num_input self + _num_param self))%nat.
Proof.
  unfold rename_inputs. revert self.
  induction inputs as [|i inputs IH]; intros self; simpl; [done|].
  rewrite IH, rename_input_counters. lia.
Qed.

(** C10, for graphs whose declared input names are pairwise distinct.
    Ingestion returns; the canonical names recorded in [_renames] are
    exactly [input_0 .. input_(k-1)] and [param_0 .. param_(m-1)], where [k]
    and [m] are the final counters and [k + m] is the number of declared
    inputs; no canonical name is recorded under two keys; and the keys are
    the declared input names. *)
Theorem ingest_canonical_names (graph : onnx.GraphProto) (self0 : GraphProto) :
  for_each (load_initializer to_array) __init__ (onnx.initializer graph) = Ok self0 →
  NoDup (onnx.value_name <$> onnx.graph_input graph) →
  let self := rename_inputs self0 (onnx.graph_input graph) in
  ingest to_array __init__ graph = Ok self
  ∧ (∀ v : string, (∃ k, _renames self !! k = Some v) ↔ assigned self v)
  ∧ (∀ k1 k2 v : string,
       _renames self !! k1 = Some v → _renames self !! k2 = Some v → k1 = k2)
  ∧ (_num_input self + _num_param self = length (onnx.graph_input graph))%nat
  ∧ dom (_renames self) = list_to_set (onnx.value_name <$> onnx.graph_input graph).
Proof.
  intros Hload Hnodup self.
  destruct (load_initializers_renames _ _ _ Hload) as (Hr & Hi & Hp).
  simpl in Hr, Hi, Hp.
  destruct (rename_inputs_inv (onnx.graph_input graph) self0 Hnodup)
    as [(Hrange & Hinj & Hsize) Hdom].
  { intros i _. by rewrite Hr, lookup_empty. }
  { by apply renames_inv_fresh. }
  split_and!.
  - unfold ingest. by rewrite Hload.
  - exact Hrange.
  - exact Hinj.
  - unfold self. rewrite rename_inputs_counters, Hi, Hp. lia.
  - unfold self. rewrite Hdom, Hr, dom_empty_L. by rewrite (right_id_L ∅ (∪)).
Qed.

(** ** The node loop: which node is the previous one *)


(** After the first node, [graph.node[idx - 1]] is the node before. *)
Lemma getitem_pred {A} (l : list A) (idx : nat) (x : A) :
  l !! idx = Some x → Py.getitem l (Z.of_nat (S idx) - 1) = Ok x.
Proof.
  intros Hl. apply getitem_lookup; [lia|].
  by replace (Z.to_nat (Z.of_nat (S idx) - 1)) with idx by lia.
Qed.



(** ** The node loop: a Gemm node *)



End Facts.

(** * The properties at sample inputs *)

Import Examples.

Lemma in_conv_family_Convolution : "Convolution" ∈ conv_family.
Proof. compute_done. Defined.

Lemma in_conv_family_Deconvolution : "Deconvolution" ∈ conv_family.
Proof. compute_done. Defined.

Lemma in_conv_family_FullyConnected : "FullyConnected" ∈ conv_family.
Proof. compute_done. Defined.

Lemma broadcast_add_not_in_conv_family : "broadcast_add" ∉ conv_family.
Proof. compute_done. Defined.

(** C6 at a Convolution with 3 inputs, a Deconvolution with 2, a
    FullyConnected with 4, and an Activation. *)
Lemma fix_bias_spec_witness :
  (_fix_bias "Convolution" ∅ 3 = Ok (<["no_bias" := Bool false]> ∅)
   ∧ use_bias (<["no_bias" := Bool false]> ∅) = Some true)
  ∧ (_fix_bias "Deconvolution" ∅ 2 = Ok (<["no_bias" := Bool true]> ∅)
     ∧ use_bias (<["no_bias" := Bool true]> ∅) = Some false)
  ∧ _fix_bias "FullyConnected" ∅ 4
    = Raise (ValueError "Unexpected number of inputs for: {}")
  ∧ _fix_bias "Activation" ∅ 3 = Ok ∅.
Proof.
  split; [|split; [|split]].
  - exact (proj1 (fix_bias_spec "Convolution" ∅ 3)
             in_conv_family_Convolution eq_refl).
  - exact (proj1 (proj2 (fix_bias_spec "Deconvolution" ∅ 2))
             in_conv_family_Deconvolution eq_refl).
  - apply (proj1 (proj2 (proj2 (fix_bias_spec "FullyConnected" ∅ 4))));
      [exact in_conv_family_FullyConnected | lia | lia].
  - apply (proj2 (proj2 (proj2 (fix_bias_spec "Activation" ∅ 3)))). compute_done.
Defined.

(** C8 at a Dropout with one output, with two outputs, and at a Flatten. *)
Lemma fix_outputs_spec_witness :
  _fix_outputs "Dropout" ["y"]
  = Raise (AssertionError "ONNX have two outputs for dropout layer.")
  ∧ _fix_outputs "Dropout" ["y"; "mask"] = Ok ["y"]
  ∧ _fix_outputs "Flatten" ["y"; "mask"] = Ok ["y"; "mask"].
Proof.
  split_and!.
  - apply (proj1 (fix_outputs_spec "Dropout" ["y"])); [reflexivity | simpl; lia].
  - apply (proj1 (proj2 (fix_outputs_spec "Dropout" ["y"; "mask"])) eq_refl "y" "mask").
    reflexivity.
  - apply (proj1 (proj2 (proj2 (fix_outputs_spec "Flatten" ["y"; "mask"])))).
    discriminate.
Defined.


(** C9 at ["Flatten"], an operator of the sample identity list and of the
    sample registry. *)
Lemma convert_operator_identity_witness :
  _convert_operator identity_list convert_map registry "Flatten" ∅ None None
  = Ok ("Flatten", ∅).
Proof.
  apply (convert_operator_identity identity_list convert_map registry "Flatten" ∅
           None None); compute_done.
Defined.

(** C4 at an add with one input, at the bias ["m"] of shape (4, 4), and at
    the bias ["b"] of shape (16,). *)
Lemma fix_bias_shape_spec_witness :
  _fix_bias_shape dense_state "Add" "Conv" ["x"] = Raise (AssertionError "")
  ∧ _fix_bias_shape dense_state "Add" "Conv" ["x"; "m"] = Raise (AssertionError "")
  ∧ _fix_bias_shape dense_state "Add" "Conv" ["x"; "b"]
    = Ok {| _nodes := <["param_2" := mx.Variable_ "param_2" (Some [1; 16; 1; 1])]>
                        (_nodes dense_state);
            _params := <["param_2" := {| mx.shape := [1; 16; 1; 1]; mx.buffer := [] |}]>
                         (_params dense_state);
            _renames := _renames dense_state;
            _num_input := _num_input dense_state;
            _num_param := _num_param dense_state |}.
Proof.
  split_and!.
  - apply (proj1 (fix_bias_shape_spec dense_state ["x"])). simpl; lia.
  - apply (proj1 (proj2 (fix_bias_shape_spec dense_state ["x"; "m"]) "x" "m"
                    {| mx.shape := [4; 4]; mx.buffer := [] |} eq_refl eq_refl)).
    simpl; lia.
  - apply (proj2 (proj2 (fix_bias_shape_spec dense_state ["x"; "b"]) "x" "b"
                    {| mx.shape := [16]; mx.buffer := [] |} eq_refl eq_refl) 16).
    reflexivity.
Defined.

(** X29 at the inputs [input_0], [param_0] and the bias [param_1] of shape
    (8,), with [alpha = 2.0] and [transA = 1]. *)
Lemma fix_gemm_spec_witness :
  _fix_gemm registry parse_float parse_int dense_state "FullyConnected"
    [mx.Variable_ "input_0" None; mx.Variable_ "param_0" (Some [10; 5]);
     mx.Variable_ "param_1" (Some [8])]
    (<["alpha" := Float 2.0]> (<["transA" := Int 1]> ∅))
  = Ok (Some "FullyConnected",
        [ mx._MulScalar (mx.transpose (mx.Variable_ "input_0" None) [1; 0]) 2.0;
          mx.transpose (mx.Variable_ "param_0" (Some [10; 5])) [1; 0];
          mx._MulScalar (mx.Variable_ "param_1" (Some [8])) 1.0 ],
        {["num_hidden" := Int 8]}).
Proof.
  apply (proj1 (fix_gemm_spec registry parse_float parse_int dense_state
                  "FullyConnected"
                  (mx.Variable_ "input_0" None) (mx.Variable_ "param_0" (Some [10; 5]))
                  (mx.Variable_ "param_1" (Some [8])) [] "param_1"
                  {| mx.shape := [8]; mx.buffer := [] |} 8 []
                  eq_refl eq_refl eq_refl)
           (<["alpha" := Float 2.0]> (<["transA" := Int 1]> ∅))
           2.0%float 1.0%float 1 0);
    reflexivity.
Defined.

(** C10 at [three_input_graph]. *)
Lemma ingest_canonical_names_witness :
  let self :=
    rename_inputs
      {| _nodes := ∅;
         _params := <["b" := {| mx.shape := [10]; mx.buffer := [] |}]>
                      (<["w" := {| mx.shape := [10; 5]; mx.buffer := [] |}]> ∅);
         _renames := ∅; _num_input := 0; _num_param := 0 |}
      (onnx.graph_input three_input_graph) in
  ingest to_array __init__ three_input_graph = Ok self
  ∧ (∀ v : string, (∃ k, _renames self !! k = Some v) ↔ assigned self v)
  ∧ (∀ k1 k2 v : string,
       _renames self !! k1 = Some v → _renames self !! k2 = Some v → k1 = k2)
  ∧ (_num_input self + _num_param self = 3)%nat
  ∧ dom (_renames self) = list_to_set ["x"; "w"; "b"].
Proof.
  apply (ingest_canonical_names to_array three_input_graph).
  - vm_compute. reflexivity.
  - compute_done.
Defined.

(** C10 as stated fails when an input name repeats: after ingesting
    [duplicate_input_graph] the map records [input_1] and not [input_0]. *)
Lemma duplicate_input_leaves_a_gap :
  ∃ self : GraphProto,
    ingest to_array __init__ duplicate_input_graph = Ok self
    ∧ _num_input self = 2%nat
    ∧ (∃ k, _renames self !! k = Some "input_1")
    ∧ ¬ (∃ k, _renames self !! k = Some "input_0").
Proof.
  exists (rename_inputs __init__ [value "x"; value "x"]).
  assert (_renames (rename_inputs __init__ [value "x"; value "x"])
          = {["x" := "input_1"]}) as Hrenames.
  { vm_compute. reflexivity. }
  rewrite Hrenames. split_and!.
  - reflexivity.
  - reflexivity.
  - exists "x". by rewrite lookup_singleton_eq.
  - intros [k Hk]. apply lookup_singleton_Some in Hk as [_ Hk]. discriminate.
Qed.




(** C4 fails for an add after a convolution whose second input is no
    parameter: the residual add of [residual_graph], whose second operand is
    the activation ["x"], and an add with the bias ["b"] first and an
    activation second.  The lookup in [_params] raises [KeyError]: nothing
    is reshaped and no assertion is reached. *)
Lemma add_after_conv_without_bias_parameter :
  _fix_bias_shape residual_after_conv "Add" "Conv" ["c"; "x"]
  = Raise (KeyError (Some "input_0"))
  ∧ _fix_bias_shape dense_state "Add" "Conv" ["b"; "x"]
    = Raise (KeyError (Some "x")).
Proof. split; vm_compute; reflexivity. Qed.


Lemma from_onnx_computed_weight :
  from_onnx identity_list convert_map registry to_array list_outputs parse_float
    parse_int __init__ computed_weight_graph
  = Raise (KeyError (Some "y")).
Proof. vm_compute. reflexivity. Qed.

(** * Further properties of the importer *)

Section More.

#[local] Set Default Proof Using "Type".

Variable _identity_list : list string.
Variable _convert_map : gmap string converter.
Variable mx_registry : list string.
Variable to_array : onnx.TensorProto → result mx.ndarray.
Variable list_outputs : mx.Symbol → list string.
Variable parse_float : string → option float.
Variable parse_int : string → option Z.

(** ** Loops *)

Lemma for_each_app {S A} (step : S → A → result S) (acc : S) (l k : list A) :
  for_each step acc (l ++ k) = (acc' ← for_each step acc l; for_each step acc' k).
Proof.
  revert acc. induction l as [|x l IH]; intros acc; simpl; [done|].
  destruct (step acc x) as [acc1|e]; simpl; [apply IH | done].
Qed.

Lemma for_each_snoc {S A} (step : S → A → result S) (acc acc' : S) (l : list A) (x : A) :
  for_each step acc l = Ok acc' →
  for_each step acc (l ++ [x]) = step acc' x.
Proof.
  intros Hl. rewrite for_each_app, Hl. simpl. by destruct (step acc' x).
Qed.

(** A loop that returns ran its body on every element, and keeps what every
    run of the body keeps. *)
Lemma for_each_Ok_ind {S A} (step : S → A → result S) (P : S → list A → Prop)
    (acc : S) (l : list A) (r : S) :
  P acc [] →
  (∀ acc1 acc2 done x, P acc1 done → step acc1 x = Ok acc2 → P acc2 (done ++ [x])) →
  for_each step acc l = Ok r → P r l.
Proof.
  intros Hinit Hstep.
  assert (∀ done acc1, P acc1 done → for_each step acc1 l = Ok r → P r (done ++ l))
    as Hgen.
  { induction l as [|x l IH]; intros done acc1 Hacc1 Hrun; simpl in Hrun.
    - rewrite app_nil_r. by simplify_eq.
    - destruct (step acc1 x) as [acc2|e] eqn:Hx; simpl in Hrun; [|done].
      replace (done ++ x :: l) with ((done ++ [x]) ++ l) by by rewrite <- app_assoc.
      eapply IH; [|done]. by eapply Hstep. }
  apply (Hgen [] acc Hinit).
Qed.

(** Subscripting with a non-negative index. *)
Lemma getitem_nonneg {A} (l : list A) (i : Z) :
  0 ≤ i →
  Py.getitem l i = match l !! Z.to_nat i with
                   | Some x => Ok x
                   | None => Raise IndexError
                   end.
Proof.
  intros Hi. unfold Py.getitem. cbv zeta.
  rewrite (decide_False (P := i < 0)) by lia.
  by rewrite decide_False by lia.
Qed.

(** ** The attribute parser *)

Lemma parse_attr_scalar_frame (name k : string) (field : option val) (attrs : attrs_t) :
  k ≠ name → parse_attr_scalar name field attrs !! k = attrs !! k.
Proof.
  intros Hk. destruct field; simpl; [|done]. by rewrite lookup_insert_ne.
Qed.

Lemma parse_attr_list_frame (name k : string) (field : list val) (attrs attrs' : attrs_t) :
  parse_attr_list name field attrs = Ok attrs' →
  k ≠ name → attrs' !! k = attrs !! k.
Proof.
  intros Hrun Hk. destruct field as [|v field]; simpl in Hrun; [by simplify_eq|].
  destruct (assert_ (attrs !! name = None) _); simpl in Hrun; [|done].
  simplify_eq. by rewrite lookup_insert_ne.
Qed.

Lemma parse_attr_unsupported_Ok (present : bool) (field : string) (u : unit) :
  parse_attr_unsupported present field = Ok u → present = false.
Proof. by destruct present. Qed.

(** What one round of the loop of [_parse_attr] that returns has done. *)
Lemma parse_attr_step_Ok (attrs attrs' : attrs_t) (a : onnx.AttributeProto) :
  _parse_attr_step attrs a = Ok attrs' →
  (∀ k, k ≠ onnx.attr_name a → attrs' !! k = attrs !! k)
  ∧ is_Some (attrs' !! onnx.attr_name a)
  ∧ onnx.t a = None ∧ onnx.g a = None ∧ onnx.tensors a = [] ∧ onnx.graphs a = [].
Proof.
  unfold _parse_attr_step. cbv zeta. intros Hrun.
  destruct (parse_attr_list (onnx.attr_name a) (Float <$> onnx.floats a) _)
    as [attrs1|] eqn:H1; simpl in Hrun; [|done].
  destruct (parse_attr_list (onnx.attr_name a) (Int <$> onnx.ints a) _)
    as [attrs2|] eqn:H2; simpl in Hrun; [|done].
  destruct (parse_attr_list (onnx.attr_name a) (Bytes <$> onnx.strings a) _)
    as [attrs3|] eqn:H3; simpl in Hrun; [|done].
  destruct (parse_attr_unsupported (bool_decide (is_Some (onnx.t a))) "t")
    as [[]|] eqn:Ht; simpl in Hrun; [|done].
  destruct (parse_attr_unsupported (bool_decide (is_Some (onnx.g a))) "g")
    as [[]|] eqn:Hg; simpl in Hrun; [|done].
  destruct (parse_attr_unsupported (bool_decide (onnx.tensors a ≠ [])) "tensors")
    as [[]|] eqn:Hts; simpl in Hrun; [|done].
  destruct (parse_attr_unsupported (bool_decide (onnx.graphs a ≠ [])) "graphs")
    as [[]|] eqn:Hgs; simpl in Hrun; [|done].
  destruct (attrs3 !! onnx.attr_name a) as [v|] eqn:Hv; [|done].
  simplify_eq. split_and!.
  - intros k Hk.
    rewrite (parse_attr_list_frame _ _ _ _ _ H3 Hk).
    rewrite (parse_attr_list_frame _ _ _ _ _ H2 Hk).
    rewrite (parse_attr_list_frame _ _ _ _ _ H1 Hk).
    by rewrite !parse_attr_scalar_frame.
  - by rewrite Hv.
  - apply parse_attr_unsupported_Ok, bool_decide_eq_false in Ht.
    destruct (onnx.t a); [|done]. exfalso. apply Ht. by eexists.
  - apply parse_attr_unsupported_Ok, bool_decide_eq_false in Hg.
    destruct (onnx.g a); [|done]. exfalso. apply Hg. by eexists.
  - apply parse_attr_unsupported_Ok, bool_decide_eq_false in Hts.
    destruct (onnx.tensors a); [done|]. exfalso. by apply Hts.
  - apply parse_attr_unsupported_Ok, bool_decide_eq_false in Hgs.
    destruct (onnx.graphs a); [done|]. exfalso. by apply Hgs.
Qed.

(** X1.  When [_parse_attr] returns, the keys of the dictionary are exactly
    the names of the attributes of the list. *)
Theorem parse_attr_keys (attr_proto : list onnx.AttributeProto) (attrs : attrs_t) :
  _parse_attr attr_proto = Ok attrs →
  dom attrs = list_to_set (onnx.attr_name <$> attr_proto).
Proof.
  unfold _parse_attr. intros Hrun.
  apply (for_each_Ok_ind _parse_attr_step
           (λ acc done, dom acc = list_to_set (onnx.attr_name <$> done))
           ∅ attr_proto attrs); [by rewrite dom_empty_L | | done].
  intros acc1 acc2 done a Hacc1 Hstep.
  destruct (parse_attr_step_Ok _ _ _ Hstep) as (Hframe & Hname & _).
  rewrite fmap_app, list_to_set_app_L, <- Hacc1. simpl.
  rewrite (right_id_L ∅ (∪)).
  apply set_eq. intros k. rewrite elem_of_union, elem_of_singleton, !elem_of_dom.
  destruct (decide (k = onnx.attr_name a)) as [->|Hk].
  - split; [by right | done].
  - rewrite (Hframe k Hk). split; [by left | by intros [|]].
Qed.

(** X2.  [_parse_attr] never returns a dictionary for a list in which some
    attribute carries a tensor, a sub-graph, or a list of tensors or of
    sub-graphs. *)
Theorem parse_attr_rejects_tensors_and_graphs
    (attr_proto : list onnx.AttributeProto) (attrs : attrs_t) (a : onnx.AttributeProto) :
  _parse_attr attr_proto = Ok attrs →
  a ∈ attr_proto →
  onnx.t a = None ∧ onnx.g a = None ∧ onnx.tensors a = [] ∧ onnx.graphs a = [].
Proof.
  unfold _parse_attr. intros Hrun.
  apply (for_each_Ok_ind _parse_attr_step
           (λ _ done, a ∈ done →
              onnx.t a = None ∧ onnx.g a = None ∧ onnx.tensors a = []
              ∧ onnx.graphs a = [])
           ∅ attr_proto attrs); [by intros ?%elem_of_nil | | done].
  intros acc1 acc2 done x Hdone Hstep [Hin|Hin%list_elem_of_singleton]%elem_of_app.
  - by apply Hdone.
  - subst x. by destruct (parse_attr_step_Ok _ _ _ Hstep) as (_ & _ & ?).
Qed.

Lemma parse_attr_step_scalars (attrs : attrs_t) (a : onnx.AttributeProto) :
  no_list_field a → no_nested_field a →
  _parse_attr_step attrs a
  = match scalar_value a with
    | Some v => Ok (<[onnx.attr_name a := v]> attrs)
    | None => match attrs !! onnx.attr_name a with
              | Some _ => Ok attrs
              | None => Raise (ValueError "Cannot parse attribute: {}.")
              end
    end.
Proof.
  destruct a as [name f i s floats ints strings t g tensors graphs].
  unfold no_list_field, no_nested_field, scalar_value, _parse_attr_step. simpl.
  intros (-> & -> & ->) (-> & -> & -> & ->). simpl.
  destruct f, i, s; simpl; rewrite ?insert_insert_eq, ?lookup_insert_eq; done.
Qed.

Lemma parse_attr_step_list_on_present (attrs : attrs_t) (a : onnx.AttributeProto) :
  is_Some (attrs !! onnx.attr_name a) ∨ is_Some (scalar_value a) →
  ¬ no_list_field a →
  _parse_attr_step attrs a = Raise (AssertionError "Only one type of attr is allowed").
Proof.
  destruct a as [name f i s floats ints strings t g tensors graphs].
  unfold no_list_field, scalar_value, _parse_attr_step. simpl.
  intros Hpresent Hlist.
  assert (is_Some (parse_attr_scalar name (Bytes <$> s)
                     (parse_attr_scalar name (Int <$> i)
                        (parse_attr_scalar name (Float <$> f) attrs)) !! name))
    as [v Hv].
  { destruct f, i, s; simpl; rewrite ?lookup_insert_eq; try by eexists.
    destruct Hpresent as [?|[? ?]]; done. }
  destruct floats as [|x floats]; simpl.
  - destruct ints as [|y ints]; simpl.
    + destruct strings as [|z strings]; simpl; [by destruct Hlist|].
      rewrite assert_false; [done|]. by rewrite Hv.
    + rewrite assert_false; [done|]. by rewrite Hv.
  - rewrite assert_false; [done|]. by rewrite Hv.
Qed.

(** X3.  An attribute with no field populated is rejected with the
    [ValueError] only when its name is new; when an earlier attribute of the
    list has the same name, it is accepted and changes nothing. *)
Theorem parse_attr_empty_attribute (attr_proto : list onnx.AttributeProto)
    (attrs : attrs_t) (a : onnx.AttributeProto) :
  _parse_attr attr_proto = Ok attrs →
  no_scalar_field a → no_list_field a → no_nested_field a →
  (attrs !! onnx.attr_name a = None →
     _parse_attr (attr_proto ++ [a]) = Raise (ValueError "Cannot parse attribute: {}."))
  ∧ (is_Some (attrs !! onnx.attr_name a) →
     _parse_attr (attr_proto ++ [a]) = Ok attrs).
Proof.
  unfold _parse_attr. intros Hrun (Hf & Hi & Hs) Hlist Hnested.
  rewrite (for_each_snoc _ _ _ _ _ Hrun).
  rewrite (parse_attr_step_scalars attrs a Hlist Hnested).
  unfold scalar_value. rewrite Hf, Hi, Hs. split.
  - by intros ->.
  - by intros [v ->].
Qed.

(** X4.  For an attribute with scalar fields only, the value recorded is
    that of [s] if it is set, else of [i], else of [f]; it replaces whatever
    an earlier attribute of the same name recorded. *)
Theorem parse_attr_scalar_precedence (attr_proto : list onnx.AttributeProto)
    (attrs : attrs_t) (a : onnx.AttributeProto) (v : val) :
  _parse_attr attr_proto = Ok attrs →
  no_list_field a → no_nested_field a →
  scalar_value a = Some v →
  _parse_attr (attr_proto ++ [a]) = Ok (<[onnx.attr_name a := v]> attrs).
Proof.
  unfold _parse_attr. intros Hrun Hlist Hnested Hv.
  rewrite (for_each_snoc _ _ _ _ _ Hrun).
  by rewrite (parse_attr_step_scalars attrs a Hlist Hnested), Hv.
Qed.

(** X5.  A populated list field makes the assertion fail whenever the name
    already has a value, be it from a scalar field of the same attribute or
    from an earlier attribute of the list. *)
Theorem parse_attr_list_on_present_name (attr_proto : list onnx.AttributeProto)
    (attrs : attrs_t) (a : onnx.AttributeProto) :
  _parse_attr attr_proto = Ok attrs →
  is_Some (attrs !! onnx.attr_name a) ∨ is_Some (scalar_value a) →
  ¬ no_list_field a →
  _parse_attr (attr_proto ++ [a])
  = Raise (AssertionError "Only one type of attr is allowed").
Proof.
  unfold _parse_attr. intros Hrun Hpresent Hlist.
  rewrite (for_each_snoc _ _ _ _ _ Hrun).
  by apply parse_attr_step_list_on_present.
Qed.

(** X6.  A single populated list field on a new name is recorded as a tuple;
    a second populated list field of the same attribute makes the assertion
    fail. *)
Theorem parse_attr_list_fields (attr_proto : list onnx.AttributeProto)
    (attrs : attrs_t) (a : onnx.AttributeProto) :
  _parse_attr attr_proto = Ok attrs →
  attrs !! onnx.attr_name a = None →
  no_scalar_field a → no_nested_field a →
  (onnx.floats a ≠ [] → onnx.ints a = [] → onnx.strings a = [] →
     _parse_attr (attr_proto ++ [a])
     = Ok (<[onnx.attr_name a := Tuple (Float <$> onnx.floats a)]> attrs))
  ∧ (onnx.floats a = [] → onnx.ints a ≠ [] → onnx.strings a = [] →
     _parse_attr (attr_proto ++ [a])
     = Ok (<[onnx.attr_name a := Tuple (Int <$> onnx.ints a)]> attrs))
  ∧ (onnx.floats a = [] → onnx.ints a = [] → onnx.strings a ≠ [] →
     _parse_attr (attr_proto ++ [a])
     = Ok (<[onnx.attr_name a := Tuple (Bytes <$> onnx.strings a)]> attrs))
  ∧ ((onnx.floats a ≠ [] ∧ onnx.ints a ≠ []) ∨ (onnx.floats a ≠ [] ∧ onnx.strings a ≠ [])
     ∨ (onnx.ints a ≠ [] ∧ onnx.strings a ≠ []) →
     _parse_attr (attr_proto ++ [a])
     = Raise (AssertionError "Only one type of attr is allowed")).
Proof.
  unfold _parse_attr. intros Hrun Hnew (Hf & Hi & Hs) (Ht & Hg & Hts & Hgs).
  rewrite (for_each_snoc _ _ _ _ _ Hrun).
  destruct a as [name f i s floats ints strings t g tensors graphs].
  unfold _parse_attr_step. simpl in *. subst. simpl.
  split_and!.
  - intros Hfl -> ->. destruct floats as [|x floats]; [done|]. simpl.
    rewrite assert_true by done. simpl. by rewrite lookup_insert_eq.
  - intros -> Hin ->. destruct ints as [|x ints]; [done|]. simpl.
    rewrite assert_true by done. simpl. by rewrite lookup_insert_eq.
  - intros -> -> Hst. destruct strings as [|x strings]; [done|]. simpl.
    rewrite assert_true by done. simpl. by rewrite lookup_insert_eq.
  - intros Htwo.
    destruct floats as [|x floats]; simpl.
    + destruct ints as [|y ints]; [by destruct Htwo as [[??]|[[??]|[??]]]|].
      destruct strings as [|z strings]; [by destruct Htwo as [[??]|[[??]|[??]]]|].
      simpl. rewrite assert_true by done. simpl.
      rewrite assert_false; [done|]. by rewrite lookup_insert_eq.
    + rewrite assert_true by done. simpl.
      destruct ints as [|y ints]; simpl.
      * destruct strings as [|z strings]; [by destruct Htwo as [[??]|[[??]|[??]]]|].
        simpl. rewrite assert_false; [done|]. by rewrite lookup_insert_eq.
      * rewrite assert_false; [done|]. by rewrite lookup_insert_eq.
Qed.

(** ** Operator translation *)

Local Abbreviation convert_operator :=
  (_convert_operator _identity_list _convert_map mx_registry).
Local Abbreviation fix_gemm := (_fix_gemm mx_registry parse_float parse_int).

(** X7.  A translation that returns is the identity on a name of the
    identity list, and otherwise what the registered converter returned; in
    both cases the operator it returns is an attribute of [mx.sym]. *)
Theorem convert_operator_Ok (op_name : string) (attrs : attrs_t)
    (identity_list : option (list string))
    (convert_map : option (gmap string converter))
    (op : string) (attrs' : attrs_t) :
  convert_operator op_name attrs identity_list convert_map = Ok (op, attrs') →
  op ∈ mx_sym_dir mx_registry
  ∧ (op_name ∈ list_or_default identity_list _identity_list →
     op = op_name ∧ attrs' = attrs)
  ∧ (op_name ∉ list_or_default identity_list _identity_list →
     ∃ cvt, dict_or_default convert_map _convert_map !! op_name = Some cvt
            ∧ cvt attrs = Ok (op, attrs')).
Proof.
  unfold _convert_operator. cbv zeta. intros Hrun.
  destruct (decide (op_name ∈ list_or_default identity_list _identity_list))
    as [Hid|Hid]; simpl in Hrun.
  - unfold getattr_mx_sym in Hrun.
    destruct (decide (op_name ∈ mx_sym_dir mx_registry)); [|done].
    simplify_eq. by split_and!.
  - destruct (dict_or_default convert_map _convert_map !! op_name) as [cvt|]
      eqn:Hcvt; simpl in Hrun; [|done].
    destruct (cvt attrs) as [[op1 attrs1]|] eqn:Hres; simpl in Hrun; [|done].
    unfold getattr_mx_sym in Hrun.
    destruct (decide (op1 ∈ mx_sym_dir mx_registry)); [|done].
    simplify_eq. split_and!; [done|done|]. intros _. by exists cvt.
Qed.

(** An empty list or an empty dictionary passed for a table is taken for a
    missing argument: the module's own table is used. *)
Lemma convert_operator_empty_tables (op_name : string) (attrs : attrs_t)
    (identity_list : option (list string))
    (convert_map : option (gmap string converter)) :
  convert_operator op_name attrs (Some []) convert_map
  = convert_operator op_name attrs None convert_map
  ∧ convert_operator op_name attrs identity_list (Some ∅)
    = convert_operator op_name attrs identity_list None.
Proof. done. Qed.

(** X9.  A name that is in neither table is refused with
    [NotImplementedError], also when [mx.sym] has an operator of that name. *)
Theorem convert_operator_unsupported (op_name : string) (attrs : attrs_t)
    (identity_list : option (list string))
    (convert_map : option (gmap string converter)) :
  op_name ∉ list_or_default identity_list _identity_list →
  dict_or_default convert_map _convert_map !! op_name = None →
  convert_operator op_name attrs identity_list convert_map
  = Raise (NotImplementedError "Operator {} not implemented.").
Proof.
  intros Hid Hcvt. unfold _convert_operator. cbv zeta.
  rewrite decide_False by done. by rewrite Hcvt.
Qed.

(** ** The bias-presence and channel-count workarounds *)

(** X10.  [_fix_bias] changes no key but [no_bias], and for an operator of
    the family its result does not depend on a [no_bias] the converter
    set. *)
Theorem fix_bias_frame (op : string) (attrs : attrs_t) (num_inputs : nat) :
  (∀ attrs', _fix_bias op attrs num_inputs = Ok attrs' →
     ∀ k, k ≠ "no_bias" → attrs' !! k = attrs !! k)
  ∧ (op ∈ conv_family → ∀ v,
     _fix_bias op (<["no_bias" := v]> attrs) num_inputs = _fix_bias op attrs num_inputs).
Proof.
  unfold _fix_bias. split.
  - intros attrs' Hrun k Hk.
    destruct (decide (op ∉ conv_family)); [by simplify_eq|].
    destruct (decide (num_inputs = 3%nat)); [simplify_eq; by rewrite lookup_insert_ne|].
    destruct (decide (num_inputs = 2%nat)); [simplify_eq; by rewrite lookup_insert_ne|].
    done.
  - intros Hop v. rewrite !(decide_False (P := op ∉ conv_family))
      by (intros Hn; by apply Hn).
    by rewrite !insert_insert_eq.
Qed.

(** X11.  [_fix_channels] returns for an operator of the family only when
    the node has a second input that is a key of [_renames] and whose
    canonical name is a parameter of rank at least 2; it changes no key but
    [num_hidden] and [num_filter]. *)
Theorem fix_channels_Ok (self : GraphProto) (op : string) (attrs attrs' : attrs_t)
    (inputs : list string) :
  _fix_channels self op attrs inputs = Ok attrs' →
  (∀ k, k ≠ "num_hidden" → k ≠ "num_filter" → attrs' !! k = attrs !! k)
  ∧ (op ∈ conv_family →
     ∃ (i1 weight_name : string) (w : mx.ndarray),
       inputs !! 1%nat = Some i1
       ∧ _renames self !! i1 = Some weight_name
       ∧ _params self !! weight_name = Some w
       ∧ (2 ≤ length (mx.shape w))%nat).
Proof.
  unfold _fix_channels. intros Hrun.
  destruct (decide (op ∉ conv_family)) as [Hop|Hop]; [by simplify_eq|].
  rewrite (getitem_nonneg inputs 1) in Hrun by lia.
  change (Z.to_nat 1) with 1%nat in Hrun.
  destruct (inputs !! 1%nat) as [i1|] eqn:Hi1; [|done].
  rewrite bind_Ok in Hrun.
  unfold dict_getitem in Hrun.
  destruct (_renames self !! i1) as [weight_name|] eqn:Hren; [|done].
  rewrite bind_Ok in Hrun.
  destruct (_params self !! weight_name) as [w|] eqn:Hpar; [|done].
  unfold assert_ in Hrun.
  destruct (decide (2 ≤ length (mx.shape w))%nat) as [Hrank|]; [|done].
  rewrite bind_Ok in Hrun.
  rewrite (getitem_nonneg (mx.shape w) 0) in Hrun by lia.
  destruct (mx.shape w !! Z.to_nat 0) as [d|]; [|done].
  rewrite bind_Ok in Hrun.
  split.
  - intros k Hh Hf.
    destruct (decide (op ∈ ["FullyConnected"])); simplify_eq;
      by rewrite lookup_insert_ne.
  - intros _. by exists i1, weight_name, w.
Qed.

(** X12.  The failures of [_fix_channels] for an operator of the family:
    [IndexError] for a node with fewer than 2 inputs, the [ValueError] when
    the canonical name of the second input is not a parameter, the failed
    assertion when the parameter has rank below 2. *)
Theorem fix_channels_failures (self : GraphProto) (op : string) (attrs : attrs_t)
    (inputs : list string) :
  op ∈ conv_family →
  ((length inputs < 2)%nat → _fix_channels self op attrs inputs = Raise IndexError)
  ∧ (∀ i1 weight_name,
       inputs !! 1%nat = Some i1 →
       _renames self !! i1 = Some weight_name →
       (_params self !! weight_name = None →
          _fix_channels self op attrs inputs
          = Raise (ValueError "Unable to get channels/units attr from onnx graph."))
       ∧ (∀ w, _params self !! weight_name = Some w →
            (length (mx.shape w) < 2)%nat →
            _fix_channels self op attrs inputs
            = Raise (AssertionError "Weights shape is invalid: {}"))).
Proof.
  intros Hop. split.
  - intros Hlen. unfold _fix_channels.
    rewrite decide_False by (intros Hn; by apply Hn).
    rewrite (getitem_nonneg inputs 1) by lia.
    rewrite (lookup_ge_None_2 inputs (Z.to_nat 1)); [done|].
    change (Z.to_nat 1) with 1%nat. lia.
  - intros i1 weight_name Hi1 Hren. split.
    + intros Hpar. by apply (fix_channels_missing_param self op attrs inputs i1 weight_name).
    + intros w Hpar Hrank.
      by apply (fix_channels_low_rank self op attrs inputs i1 weight_name w).
Qed.

(** ** The bias-shape workaround *)

(** X13.  The workaround does not compose with itself: once a bias of shape
    (C,) is reshaped, a second add after a convolution that uses the same
    bias fails the rank assertion. *)
Theorem fix_bias_shape_twice (self : GraphProto) (x x' b : string)
    (bias : mx.ndarray) (C : Z) :
  _params self !! dict_get (_renames self) b b = Some bias →
  mx.shape bias = [C] →
  (self1 ← _fix_bias_shape self "Add" "Conv" [x; b];
   _fix_bias_shape self1 "Add" "Conv" [x'; b])
  = Raise (AssertionError "").
Proof.
  intros Hbias HC.
  rewrite (fix_bias_shape_vector self x b bias C Hbias HC), bind_Ok.
  unfold _fix_bias_shape. rewrite decide_True by done.
  rewrite (getitem_lookup [x'; b] 1 b) by (done || lia).
  rewrite assert_true by done. rewrite !bind_Ok. cbv beta.
  unfold dict_getitem. simpl _renames. simpl _params.
  rewrite lookup_insert_eq, bind_Ok.
  by rewrite assert_false.
Qed.

(** X14.  An ['Add'] placed right after a ['Conv'] whose second operand is
    not a parameter (the sum of two activations) aborts the conversion of
    the node with [KeyError]. *)
Theorem convert_node_add_of_activations
    (graph : onnx.GraphProto) (self : GraphProto) (idx : nat)
    (node prev : onnx.NodeProto) (x b : string) (attr new_attr : attrs_t)
    (new_op : string) :
  onnx.node graph !! idx = Some prev →
  onnx.op_type prev = "Conv" →
  onnx.op_type node = "Add" →
  onnx.input node = [x; b] →
  _parse_attr (onnx.attribute node) = Ok attr →
  convert_operator "Add" attr None None = Ok (new_op, new_attr) →
  new_op ∉ conv_family →
  is_Some (_nodes self !! dict_get (_renames self) x x) →
  is_Some (_nodes self !! dict_get (_renames self) b b) →
  _params self !! dict_get (_renames self) b b = None →
  convert_node _identity_list _convert_map mx_registry list_outputs
    parse_float parse_int graph self (S idx) node
  = Raise (KeyError (Some (dict_get (_renames self) b b))).
Proof.
  intros Hprev Hprevop Hop Hin Hattr Hcvt Hfam [sx Hsx] [sb Hsb] Hbias.
  assert (resolve_inputs self [x; b] = Ok [sx; sb]) as Hres.
  { simpl. unfold dict_getitem. by rewrite Hsx, Hsb. }
  unfold convert_node. cbv zeta. rewrite Hop, Hin, Hattr, bind_Ok. cbv beta.
  rewrite Hcvt, bind_Ok. cbv beta iota.
  rewrite Hres, bind_Ok. cbv beta.
  rewrite fix_bias_other_op by done. rewrite bind_Ok. cbv beta.
  rewrite fix_channels_other_op by done. rewrite bind_Ok. cbv beta.
  rewrite (getitem_pred _ _ _ Hprev), bind_Ok. cbv beta.
  rewrite Hprevop.
  by rewrite (fix_bias_shape_not_a_parameter self x b Hbias).
Qed.

(** Whatever its arguments, a call of [_fix_bias_shape] that returns has
    left [_renames] and the counters alone, has added and removed no
    parameter, has kept the buffer and the number of elements of every
    parameter, and has removed no node. *)
Lemma fix_bias_shape_frame (self self' : GraphProto) (op_name last_op_name : string)
    (inputs : list string) :
  _fix_bias_shape self op_name last_op_name inputs = Ok self' →
  _renames self' = _renames self
  ∧ _num_input self' = _num_input self
  ∧ _num_param self' = _num_param self
  ∧ (∀ k, mx.buffer <$> _params self' !! k = mx.buffer <$> _params self !! k)
  ∧ (∀ k, mx.size <$> _params self' !! k = mx.size <$> _params self !! k)
  ∧ (∀ k, is_Some (_nodes self !! k) → is_Some (_nodes self' !! k)).
Proof.
  unfold _fix_bias_shape. intros Hrun.
  destruct (decide (op_name = "Add" ∧ last_op_name = "Conv")); [|by simplify_eq].
  unfold assert_ in Hrun.
  destruct (decide (length inputs = 2%nat)) as [Hlen|]; [|done].
  rewrite bind_Ok in Hrun.
  rewrite (getitem_nonneg inputs 1) in Hrun by lia.
  destruct (inputs !! Z.to_nat 1) as [i1|]; [|done].
  rewrite bind_Ok in Hrun. cbv beta zeta in Hrun.
  unfold dict_getitem in Hrun.
  destruct (_params self !! dict_get (_renames self) i1 i1) as [bias|] eqn:Hbias;
    [|done].
  rewrite bind_Ok in Hrun.
  destruct (decide (length (mx.shape bias) = 1%nat)) as [Hrank|]; [|done].
  rewrite bind_Ok in Hrun.
  destruct (mx.shape bias) as [|C [|? ?]] eqn:HC; try done.
  rewrite (reshape_vector bias C HC), bind_Ok in Hrun.
  simplify_eq. simpl. split_and!; try done.
  - intros k. destruct (decide (k = dict_get (_renames self) i1 i1)) as [->|Hk].
    + by rewrite lookup_insert_eq, Hbias.
    + by rewrite lookup_insert_ne.
  - intros k. destruct (decide (k = dict_get (_renames self) i1 i1)) as [->|Hk].
    + rewrite lookup_insert_eq, Hbias. simpl. unfold mx.size. rewrite HC. simpl.
      f_equal. lia.
    + by rewrite lookup_insert_ne.
  - intros k Hk. destruct (decide (k = dict_get (_renames self) i1 i1)) as [->|Hne].
    + rewrite lookup_insert_eq. by eexists.
    + by rewrite lookup_insert_ne.
Qed.

(** ** The Gemm workaround *)

(** X16.  With fewer than 3 inputs (a Gemm without its bias) [_fix_gemm]
    raises [IndexError], whatever the transposition flags. *)
Theorem fix_gemm_short_inputs (self : GraphProto) (op_name : string)
    (inputs : list mx.Symbol) (old_attr : attrs_t)
    (alpha beta : float) (transA transB : Z) :
  float_ parse_float (default (Float 1.0) (old_attr !! "alpha")) = Ok alpha →
  float_ parse_float (default (Float 1.0) (old_attr !! "beta")) = Ok beta →
  int_ parse_int (default (Int 0) (old_attr !! "transA")) = Ok transA →
  int_ parse_int (default (Int 0) (old_attr !! "transB")) = Ok transB →
  (length inputs < 3)%nat →
  fix_gemm self op_name inputs old_attr = Raise IndexError.
Proof.
  intros Halpha Hbeta HtA HtB Hlen.
  unfold _fix_gemm, dict_get. rewrite Halpha, Hbeta, HtA, HtB, !bind_Ok. cbv beta.
  destruct inputs as [|a [|b [|c rest]]]; [| | |simpl in Hlen; lia];
    destruct (decide (transA ≠ 0)); destruct (decide (transB = 0)); reflexivity.
Qed.

(** What a call of [_fix_gemm] that returns has produced. *)
Lemma fix_gemm_Ok_inv (self : GraphProto) (op_name : string)
    (inputs new_inputs : list mx.Symbol) (old_attr new_attr : attrs_t)
    (op : option string) :
  fix_gemm self op_name inputs old_attr = Ok (op, new_inputs, new_attr) →
  (3 ≤ length inputs)%nat
  ∧ length new_inputs = 3%nat
  ∧ op = getattr_mx_sym mx_registry op_name
  ∧ ∃ d : Z, new_attr = {["num_hidden" := Int d]}.
Proof.
  unfold _fix_gemm. intros Hrun.
  destruct (float_ parse_float (dict_get old_attr "alpha" (Float 1))) as [alpha|];
    [|done].
  rewrite bind_Ok in Hrun.
  destruct (float_ parse_float (dict_get old_attr "beta" (Float 1))) as [beta|];
    [|done].
  rewrite bind_Ok in Hrun.
  destruct (int_ parse_int (dict_get old_attr "transA" (Int 0))) as [transA|];
    [|done].
  rewrite bind_Ok in Hrun.
  destruct (int_ parse_int (dict_get old_attr "transB" (Int 0))) as [transB|];
    [|done].
  rewrite bind_Ok in Hrun.
  destruct inputs as [|a [|b [|c rest]]];
    destruct (decide (transA ≠ 0)) as [HA|HA];
    destruct (decide (transB = 0)) as [HB|HB];
    try discriminate Hrun.
  all: simpl in Hrun.
  all: destruct (mx.name c) as [bias_name|]; [|done].
  all: unfold dict_getitem in Hrun;
    destruct (_params self !! bias_name) as [bias|]; [|done].
  all: simpl in Hrun; destruct (mx.shape bias) as [|d ds]; [done|].
  all: simpl in Hrun; simplify_eq.
  all: split_and!; [simpl; lia | done | done | by eexists].
Qed.

(** X18.  When the third input of a Gemm is not named after a parameter (it
    is an input of the graph, or the output of a node), [_fix_gemm] raises
    [KeyError]. *)
Theorem fix_gemm_bias_not_a_parameter (self : GraphProto) (op_name : string)
    (a b c : mx.Symbol) (rest : list mx.Symbol) (old_attr : attrs_t)
    (alpha beta : float) (transA transB : Z) :
  float_ parse_float (default (Float 1.0) (old_attr !! "alpha")) = Ok alpha →
  float_ parse_float (default (Float 1.0) (old_attr !! "beta")) = Ok beta →
  int_ parse_int (default (Int 0) (old_attr !! "transA")) = Ok transA →
  int_ parse_int (default (Int 0) (old_attr !! "transB")) = Ok transB →
  (∀ n, mx.name c = Some n → _params self !! n = None) →
  fix_gemm self op_name (a :: b :: c :: rest) old_attr = Raise (KeyError (mx.name c)).
Proof.
  intros Halpha Hbeta HtA HtB Hc.
  unfold _fix_gemm, dict_get. rewrite Halpha, Hbeta, HtA, HtB, !bind_Ok. cbv beta.
  destruct (decide (transA ≠ 0)) as [HA|HA];
    destruct (decide (transB = 0)) as [HB|HB]; simpl;
    (destruct (mx.name c) as [bias_name|]; [|done]);
    unfold dict_getitem; by rewrite (Hc bias_name eq_refl).
Qed.

(** ** Ingestion *)

Lemma load_initializer_Ok (self self' : GraphProto) (t : onnx.TensorProto) :
  load_initializer to_array self t = Ok self' →
  strip (onnx.tensor_name t) ≠ ""
  ∧ ∃ a, _parse_array to_array t = Ok a
         ∧ _params self' = <[onnx.tensor_name t := a]> (_params self)
         ∧ _nodes self' = _nodes self.
Proof.
  unfold load_initializer. intros Hrun.
  destruct (decide (strip (onnx.tensor_name t) = "")); [done|].
  destruct (_parse_array to_array t) as [a|]; [|done].
  rewrite bind_Ok in Hrun. simplify_eq. split; [done|]. by exists a.
Qed.

(** X19.  When the first loop of [from_onnx] returns, every initializer has
    a name that is not blank, the keys added to [_params] are the names of
    the initializers, and no node is created; if the names are pairwise
    distinct every initializer is one entry, its decoded tensor under its
    own name. *)
Theorem load_initializers_Ok (self self' : GraphProto) (inits : list onnx.TensorProto) :
  for_each (load_initializer to_array) self inits = Ok self' →
  (∀ t, t ∈ inits → strip (onnx.tensor_name t) ≠ "")
  ∧ dom (_params self') = list_to_set (onnx.tensor_name <$> inits) ∪ dom (_params self)
  ∧ _nodes self' = _nodes self
  ∧ (NoDup (onnx.tensor_name <$> inits) →
     ∀ t, t ∈ inits →
       ∃ a, _parse_array to_array t = Ok a
            ∧ _params self' !! onnx.tensor_name t = Some a).
Proof.
  intros Hrun.
  apply (for_each_Ok_ind (load_initializer to_array)
    (λ acc done,
       (∀ t, t ∈ done → strip (onnx.tensor_name t) ≠ "")
       ∧ dom (_params acc) = list_to_set (onnx.tensor_name <$> done) ∪ dom (_params self)
       ∧ _nodes acc = _nodes self
       ∧ (NoDup (onnx.tensor_name <$> done) →
          ∀ t, t ∈ done →
            ∃ a, _parse_array to_array t = Ok a
                 ∧ _params acc !! onnx.tensor_name t = Some a))
    self inits self'); [| |done].
  - split_and!; [by intros t ?%elem_of_nil | | done | by intros _ t ?%elem_of_nil].
    simpl. by rewrite (left_id_L ∅ (∪)).
  - intros acc1 acc2 done t (Hblank & Hdom & Hnodes & Hentries) Hstep.
    destruct (load_initializer_Ok _ _ _ Hstep) as (Hname & a & Ha & Hpar & Hnod).
    split_and!.
    + intros t' [Hin|Hin%list_elem_of_singleton]%elem_of_app; [by apply Hblank|].
      by subst t'.
    + rewrite Hpar, dom_insert_L, Hdom, fmap_app, list_to_set_app_L. simpl.
      rewrite (right_id_L ∅ (∪)).
      rewrite (comm_L (∪) (list_to_set (onnx.tensor_name <$> done))
                 ({[onnx.tensor_name t]})).
      by rewrite (assoc_L (∪)).
    + by rewrite Hnod.
    + rewrite fmap_app. intros Hnodup.
      apply NoDup_app in Hnodup as (Hnodup & Hfresh & _).
      intros t' [Hin|Hin%list_elem_of_singleton]%elem_of_app.
      * destruct (Hentries Hnodup t' Hin) as (a' & Ha' & Hlook).
        exists a'. split; [done|]. rewrite Hpar, lookup_insert_ne; [done|].
        intros Heq. apply (Hfresh (onnx.tensor_name t')).
        -- by apply list_elem_of_fmap_2.
        -- rewrite <- Heq. simpl. by left.
      * subst t'. exists a. split; [done|]. by rewrite Hpar, lookup_insert_eq.
Qed.

(** The node registry holds the canonical names handed out so far. *)
Lemma rename_input_nodes (self : GraphProto) (i : onnx.ValueInfoProto) :
  (∀ v, is_Some (_nodes self !! v) ↔ assigned self v) →
  ∀ v, is_Some (_nodes (rename_input self i) !! v) ↔ assigned (rename_input self i) v.
Proof.
  intros Hinv v. unfold rename_input, assigned.
  destruct (_params self !! onnx.value_name i) as [p|]; simpl.
  - destruct (decide (v = "param_" +:+ pretty (_num_param self))) as [->|Hv].
    + rewrite lookup_insert_eq. split; [|by eexists].
      intros _. right. eexists. split; [|done]. lia.
    + rewrite lookup_insert_ne by done. rewrite (Hinv v). unfold assigned.
      split; (intros [Hl|(n & Hn & ->)]; [by left|right]).
      * exists n. split; [lia|done].
      * exists n. split; [|done].
        destruct (decide (n = _num_param self)) as [->|]; [done|lia].
  - destruct (decide (v = "input_" +:+ pretty (_num_input self))) as [->|Hv].
    + rewrite lookup_insert_eq. split; [|by eexists].
      intros _. left. eexists. split; [|done]. lia.
    + rewrite lookup_insert_ne by done. rewrite (Hinv v). unfold assigned.
      split; (intros [(n & Hn & ->)|Hr]; [left|by right]).
      * exists n. split; [lia|done].
      * exists n. split; [|done].
        destruct (decide (n = _num_input self)) as [->|]; [done|lia].
Qed.

(** X20.  For every graph, repeated input names included: once the inputs
    are read, the keys of [_nodes] are exactly [input_0 .. input_(k-1)] and
    [param_0 .. param_(m-1)], where [k] and [m] are the two counters, and
    [k + m] is the number of declared inputs. *)
Theorem ingest_nodes_dense (graph : onnx.GraphProto) (self : GraphProto) :
  ingest to_array __init__ graph = Ok self →
  (∀ v : string, is_Some (_nodes self !! v) ↔ assigned self v)
  ∧ (_num_input self + _num_param self = length (onnx.graph_input graph))%nat.
Proof.
  unfold ingest. intros Hrun.
  destruct (for_each (load_initializer to_array) __init__ (onnx.initializer graph))
    as [self0|] eqn:Hload; [|done].
  rewrite bind_Ok in Hrun. simplify_eq.
  destruct (load_initializers_renames to_array _ _ _ Hload) as (Hr & Hi & Hp).
  simpl in Hr, Hi, Hp.
  assert (_nodes self0 = ∅) as Hnodes.
  { apply (for_each_Ok_ind (load_initializer to_array) (λ acc _, _nodes acc = ∅)
             __init__ (onnx.initializer graph) self0); [done| |done].
    intros acc1 acc2 done t Hacc Hstep.
    destruct (load_initializer_Ok _ _ _ Hstep) as (_ & a & _ & _ & Hnod).
    by rewrite Hnod. }
  split.
  - assert (∀ v, is_Some (_nodes self0 !! v) ↔ assigned self0 v) as Hinit.
    { intros v. rewrite Hnodes, lookup_empty. unfold assigned. rewrite Hi, Hp.
      split; [by intros [? ?]|]. intros [(n & Hn & _)|(n & Hn & _)]; lia. }
    unfold rename_inputs. revert Hinit. generalize self0.
    induction (onnx.graph_input graph) as [|i l IH]; intros s Hs; simpl; [done|].
    apply IH. by apply rename_input_nodes.
  - rewrite rename_inputs_counters, Hi, Hp. lia.
Qed.

Lemma rename_input_resolves (self : GraphProto) (i : onnx.ValueInfoProto) :
  (∀ k v, _renames self !! k = Some v → is_Some (_nodes self !! v)) →
  (∀ k v, _renames (rename_input self i) !! k = Some v →
          is_Some (_nodes (rename_input self i) !! v))
  ∧ is_Some (_renames (rename_input self i) !! onnx.value_name i)
  ∧ (∀ k, is_Some (_renames self !! k) → is_Some (_renames (rename_input self i) !! k)).
Proof.
  intros Hinv. unfold rename_input.
  destruct (_params self !! onnx.value_name i) as [p|]; simpl; split_and!.
  all: try (rewrite lookup_insert_eq; by eexists).
  all: try (intros k Hk; destruct (decide (k = onnx.value_name i)) as [->|Hne];
            [rewrite lookup_insert_eq; by eexists | by rewrite lookup_insert_ne]).
  all: intros k v Hk; destruct (decide (k = onnx.value_name i)) as [->|Hne];
    [ rewrite lookup_insert_eq in Hk; simplify_eq; rewrite lookup_insert_eq; by eexists
    | rewrite lookup_insert_ne in Hk by done;
      destruct (Hinv k v Hk) as [x Hx];
      match goal with
      | |- is_Some (<[?n := _]> _ !! v) =>
          destruct (decide (v = n)) as [->|Hv];
          [rewrite lookup_insert_eq; by eexists
          |rewrite lookup_insert_ne by done; by eexists]
      end ].
Qed.

(** X21.  For every graph, once the inputs are read every declared input
    name is a key of [_renames], and the canonical name it maps to is a key
    of [_nodes]: a node that names a declared input finds a symbol. *)
Theorem ingest_inputs_resolve (graph : onnx.GraphProto) (self : GraphProto)
    (i : onnx.ValueInfoProto) :
  ingest to_array __init__ graph = Ok self →
  i ∈ onnx.graph_input graph →
  ∃ v x, _renames self !! onnx.value_name i = Some v
         ∧ _nodes self !! v = Some x
         ∧ resolve_inputs self [onnx.value_name i] = Ok [x].
Proof.
  unfold ingest. intros Hrun Hin.
  destruct (for_each (load_initializer to_array) __init__ (onnx.initializer graph))
    as [self0|] eqn:Hload; [|done].
  rewrite bind_Ok in Hrun. simplify_eq.
  destruct (load_initializers_renames to_array _ _ _ Hload) as (Hr & _ & _).
  simpl in Hr.
  assert (∀ k v, _renames self0 !! k = Some v → is_Some (_nodes self0 !! v)) as Hinit.
  { intros k v. by rewrite Hr, lookup_empty. }
  assert (∀ l s,
            (∀ k v, _renames s !! k = Some v → is_Some (_nodes s !! v)) →
            (∀ k v, _renames (rename_inputs s l) !! k = Some v →
                    is_Some (_nodes (rename_inputs s l) !! v))
            ∧ (∀ j, j ∈ l → is_Some (_renames (rename_inputs s l) !! onnx.value_name j))
            ∧ (∀ k, is_Some (_renames s !! k) →
                    is_Some (_renames (rename_inputs s l) !! k))) as Hgen.
  { unfold rename_inputs. induction l as [|j l IH]; intros s Hs; simpl.
    - split_and!; [done | by intros j ?%elem_of_nil | done].
    - destruct (rename_input_resolves s j Hs) as (Hs' & Hj & Hmono).
      destruct (IH (rename_input s j) Hs') as (IH1 & IH2 & IH3).
      split_and!; [done | | by intros k Hk; apply IH3, Hmono].
      intros j' [->|Hj']%elem_of_cons; [by apply IH3 | by apply IH2]. }
  destruct (Hgen (onnx.graph_input graph) self0 Hinit) as (Hres & Hkeys & _).
  destruct (Hkeys i Hin) as [v Hv]. destruct (Hres _ _ Hv) as [x Hx].
  exists v, x. split_and!; [done|done|].
  simpl. unfold dict_getitem, dict_get. rewrite Hv. simpl. by rewrite Hx.
Qed.

(** ** The node loop *)

(** X23.  [resolve_inputs] returns exactly when every identifier, taken
    through [_renames] or as it is when it is no key, is a key of [_nodes];
    it then returns the symbols in order.  Otherwise it raises [KeyError]
    for the first identifier that is not. *)
Theorem resolve_inputs_spec (self : GraphProto) (ids : list string) :
  (∀ xs, resolve_inputs self ids = Ok xs ↔
         Forall2 (λ i x, _nodes self !! dict_get (_renames self) i i = Some x) ids xs)
  ∧ (∀ l i r,
       ids = l ++ i :: r →
       (∀ j, j ∈ l → is_Some (_nodes self !! dict_get (_renames self) j j)) →
       _nodes self !! dict_get (_renames self) i i = None →
       resolve_inputs self ids = Raise (KeyError (Some (dict_get (_renames self) i i)))).
Proof.
  split.
  - induction ids as [|i ids IH]; intros xs; simpl.
    + split; [intros ?; simplify_eq; constructor | by intros ->%Forall2_nil_inv_l].
    + unfold dict_getitem.
      destruct (_nodes self !! dict_get (_renames self) i i) as [x|] eqn:Hx; simpl.
      * destruct (resolve_inputs self ids) as [ys|e] eqn:Hys; simpl.
        -- split.
           ++ intros ?; simplify_eq. constructor; [done|]. by apply IH.
           ++ intros (x' & ys' & Hx' & Hys' & ->)%Forall2_cons_inv_l.
              apply IH in Hys'. by simplify_eq.
        -- split; [done|].
           intros (x' & ys' & Hx' & Hys' & ->)%Forall2_cons_inv_l.
           by apply IH in Hys'.
      * split; [done|].
        intros (x' & ys' & Hx' & Hys' & ->)%Forall2_cons_inv_l. congruence.
  - intros l i r -> Hl Hi. induction l as [|j l IH]; simpl.
    + unfold dict_getitem. by rewrite Hi.
    + unfold dict_getitem. destruct (Hl j) as [x Hx]; [by left|].
      rewrite Hx. simpl. rewrite IH; [done|]. intros j' Hj'. apply Hl. by right.
Qed.

(** X25.  Registering pairwise distinct output names [k_0, k_1, ...] binds
    [k_j] to the output slot [op[j]] and leaves every other key alone. *)
Theorem register_outputs_lookup (nodes : gmap string mx.Symbol) (op : mx.Symbol)
    (node_output : list string) :
  NoDup node_output →
  (∀ j k, node_output !! j = Some k →
          register_outputs nodes op node_output 0 !! k = Some (mx.getitem op j))
  ∧ (∀ k, k ∉ node_output →
          register_outputs nodes op node_output 0 !! k = nodes !! k).
Proof.
  assert (∀ l (m : gmap string mx.Symbol) (i : nat) (k : string),
            k ∉ l → register_outputs m op l i !! k = m !! k) as Hframe.
  { induction l as [|k' l IH]; intros m i k Hk; simpl; [done|].
    apply not_elem_of_cons in Hk as [Hne Hk].
    rewrite IH by done. by rewrite lookup_insert_ne. }
  intros Hnodup. split; [|by intros k Hk; apply Hframe].
  assert (∀ l (m : gmap string mx.Symbol) (i j : nat) (k : string),
            NoDup l → l !! j = Some k →
            register_outputs m op l i !! k = Some (mx.getitem op (i + j))) as Hgen.
  { induction l as [|k' l IH]; intros m i j k Hl Hj; [done|].
    apply NoDup_cons in Hl as [Hk' Hl]. simpl. destruct j as [|j]; simpl in Hj.
    - simplify_eq. rewrite Hframe by done. rewrite lookup_insert_eq.
      by rewrite Nat.add_0_r.
    - rewrite (IH _ (S i) j k Hl Hj). do 2 f_equal. lia. }
  intros j k Hj. by rewrite (Hgen node_output nodes 0%nat j k Hnodup Hj).
Qed.

(** ** Decoding a tensor *)

(** X26.  For declared dimensions that are all non-negative: when the
    decoder returns an array with as many elements as the dimensions
    multiply to, [_parse_array] returns a tensor that has the declared
    dimensions as its shape and as many elements as were decoded; with any
    other number of elements the reshape raises [ValueError]. *)
Theorem parse_array_shape (t : onnx.TensorProto) (a0 : mx.ndarray) :
  Forall (λ d, 0 ≤ d) (onnx.dims t) →
  to_array t = Ok a0 →
  (mx.size a0 = foldr Z.mul 1 (onnx.dims t) →
     ∃ a, _parse_array to_array t = Ok a
          ∧ mx.shape a = onnx.dims t
          ∧ length (mx.buffer a) = length (mx.buffer a0))
  ∧ (mx.size a0 ≠ foldr Z.mul 1 (onnx.dims t) →
     _parse_array to_array t = Raise (ValueError "cannot reshape array")).
Proof.
  intros Hdims Ha0. unfold _parse_array. rewrite Ha0, bind_Ok. unfold mx.reshape.
  assert (filter (λ d, d < 0) (onnx.dims t) = []) as ->.
  { induction Hdims as [|d l Hd Hl IH]; [done|].
    rewrite filter_cons_False by lia. exact IH. }
  assert (filter (λ d, 0 ≤ d) (onnx.dims t) = onnx.dims t) as ->.
  { induction Hdims as [|d l Hd Hl IH]; [done|].
    rewrite filter_cons_True by done. by rewrite IH. }
  cbv zeta. split; intros Hsize.
  - rewrite decide_True by done. rewrite bind_Ok. eexists. split; [done|].
    split; [done|]. simpl. by rewrite length_fmap.
  - by rewrite decide_False.
Qed.

(** ** Ingestion: where the tensors end up *)

Lemma load_initializers_nodes (self self' : GraphProto) (inits : list onnx.TensorProto) :
  for_each (load_initializer to_array) self inits = Ok self' →
  _nodes self' = _nodes self.
Proof.
  intros Hrun.
  apply (for_each_Ok_ind (load_initializer to_array) (λ acc _, _nodes acc = _nodes self)
           self inits self'); [done| |done].
  intros acc1 acc2 done t Hacc Hstep.
  destruct (load_initializer_Ok _ _ _ Hstep) as (_ & a & _ & _ & Hnod).
  by rewrite Hnod.
Qed.

Lemma param_name_ne_input_name (n m : nat) :
  "param_" +:+ pretty n ≠ "input_" +:+ pretty m.
Proof. simpl. discriminate. Qed.

Lemma rename_input_weights (P0 : gmap string mx.ndarray) (done : list string)
    (self : GraphProto) (i : onnx.ValueInfoProto) :
  ¬ param_name (onnx.value_name i) →
  onnx.value_name i ∉ done →
  weights_inv P0 done self →
  weights_inv P0 (done ++ [onnx.value_name i]) (rename_input self i).
Proof.
  intros Hcanon Hfresh (Hkeep & Hpar & Hnodp & Hnodi & Hmoved & Hplain).
  assert (_params self !! onnx.value_name i = P0 !! onnx.value_name i) as Hi
    by by apply Hkeep.
  assert (∀ n : nat, onnx.value_name i ≠ "param_" +:+ pretty n) as Hne.
  { intros n Heq. apply Hcanon. by exists n. }
  unfold rename_input.
  destruct (_params self !! onnx.value_name i) as [p|] eqn:Hp; unfold weights_inv;
    simpl; split_and!.
  - intros k Hk Hdone. apply not_elem_of_app in Hdone as [Hdone Hki].
    apply not_elem_of_cons in Hki as [Hki _].
    rewrite lookup_insert_ne by (intros <-; apply Hk; by eexists).
    rewrite lookup_delete_ne by done. by apply Hkeep.
  - intros n Hn. destruct (decide (n = _num_param self)) as [->|Hneq]; [lia|].
    rewrite lookup_insert_ne in Hn by (by intros ?%param_name_inj).
    rewrite lookup_delete_ne in Hn by apply Hne.
    apply Hpar in Hn. lia.
  - intros n Hn. destruct (decide (n = _num_param self)) as [->|Hneq]; [lia|].
    rewrite lookup_insert_ne in Hn by (by intros ?%param_name_inj).
    apply Hnodp in Hn. lia.
  - intros n Hn.
    rewrite lookup_insert_ne in Hn by apply param_name_ne_input_name.
    by apply Hnodi.
  - intros k q [Hk|Hk%list_elem_of_singleton]%elem_of_app Hq.
    + destruct (Hmoved k q Hk Hq) as (n & Hren & Hpn & Hnn).
      assert (n < _num_param self)%nat as Hlt by (apply Hpar; by eexists).
      exists n. split_and!.
      * rewrite lookup_insert_ne; [done|]. by intros <-.
      * rewrite lookup_insert_ne by (intros ?%param_name_inj; lia).
        by rewrite lookup_delete_ne by apply Hne.
      * by rewrite lookup_insert_ne by (intros ?%param_name_inj; lia).
    + subst k. rewrite <- Hi in Hq. simplify_eq.
      exists (_num_param self). by rewrite !lookup_insert_eq.
  - intros k [Hk|Hk%list_elem_of_singleton]%elem_of_app Hq.
    + destruct (Hplain k Hk Hq) as (n & Hren & Hnn).
      exists n. split.
      * rewrite lookup_insert_ne; [done|]. by intros <-.
      * by rewrite lookup_insert_ne by apply param_name_ne_input_name.
    + subst k. congruence.
  - intros k Hk Hdone. apply not_elem_of_app in Hdone as [Hdone _]. by apply Hkeep.
  - done.
  - intros n Hn.
    rewrite lookup_insert_ne in Hn by apply input_name_ne_param_name.
    by apply Hnodp.
  - intros n Hn. destruct (decide (n = _num_input self)) as [->|Hneq]; [lia|].
    rewrite lookup_insert_ne in Hn by (by intros ?%input_name_inj).
    apply Hnodi in Hn. lia.
  - intros k q [Hk|Hk%list_elem_of_singleton]%elem_of_app Hq.
    + destruct (Hmoved k q Hk Hq) as (n & Hren & Hpn & Hnn).
      exists n. split_and!; [|done|].
      * rewrite lookup_insert_ne; [done|]. by intros <-.
      * by rewrite lookup_insert_ne by apply input_name_ne_param_name.
    + subst k. congruence.
  - intros k [Hk|Hk%list_elem_of_singleton]%elem_of_app Hq.
    + destruct (Hplain k Hk Hq) as (n & Hren & Hnn).
      assert (n < _num_input self)%nat as Hlt by (apply Hnodi; by eexists).
      exists n. split.
      * rewrite lookup_insert_ne; [done|]. by intros <-.
      * by rewrite lookup_insert_ne by (intros ?%input_name_inj; lia).
    + subst k. exists (_num_input self). by rewrite !lookup_insert_eq.
Qed.

Lemma rename_inputs_weights (P0 : gmap string mx.ndarray)
    (inputs : list onnx.ValueInfoProto) (done : list string) (self : GraphProto) :
  NoDup (done ++ (onnx.value_name <$> inputs)) →
  (∀ i, i ∈ inputs → ¬ param_name (onnx.value_name i)) →
  weights_inv P0 done self →
  weights_inv P0 (done ++ (onnx.value_name <$> inputs)) (rename_inputs self inputs).
Proof.
  unfold rename_inputs. revert done self.
  induction inputs as [|i inputs IH]; intros done self Hnodup Hcanon Hinv.
  - simpl. by rewrite app_nil_r.
  - rewrite fmap_cons in *. rewrite cons_middle, app_assoc in Hnodup.
    rewrite cons_middle, app_assoc.
    change (foldl rename_input self (i :: inputs))
      with (foldl rename_input (rename_input self i) inputs).
    apply IH; [done | by intros j Hj; apply Hcanon; right |].
    apply rename_input_weights; [apply Hcanon; by left | | done].
    apply NoDup_app in Hnodup as (Hnodup & _ & _).
    apply NoDup_app in Hnodup as (_ & Hfresh & _).
    intros Hin. apply (Hfresh _ Hin). by left.
Qed.

(** X27.  When the declared input names are pairwise distinct and neither
    an initializer nor an input is named like [param_N], ingestion puts the
    tensor of every initializer that is declared as an input under the
    canonical name [_renames] gives it, with a variable node of the tensor's
    shape; every other input gets a variable node without a shape; and an
    initializer that is not declared as an input keeps its own name. *)
Theorem ingest_keeps_weights (graph : onnx.GraphProto) (self0 : GraphProto) :
  for_each (load_initializer to_array) __init__ (onnx.initializer graph) = Ok self0 →
  NoDup (onnx.value_name <$> onnx.graph_input graph) →
  (∀ k, is_Some (_params self0 !! k) → ¬ param_name k) →
  (∀ i, i ∈ onnx.graph_input graph → ¬ param_name (onnx.value_name i)) →
  let self := rename_inputs self0 (onnx.graph_input graph) in
  ingest to_array __init__ graph = Ok self
  ∧ (∀ i p, i ∈ onnx.graph_input graph →
       _params self0 !! onnx.value_name i = Some p →
       ∃ n : nat,
         _renames self !! onnx.value_name i = Some ("param_" +:+ pretty n)
         ∧ _params self !! ("param_" +:+ pretty n) = Some p
         ∧ _nodes self !! ("param_" +:+ pretty n)
           = Some (mx.Variable_ ("param_" +:+ pretty n) (Some (mx.shape p))))
  ∧ (∀ i, i ∈ onnx.graph_input graph →
       _params self0 !! onnx.value_name i = None →
       ∃ n : nat,
         _renames self !! onnx.value_name i = Some ("input_" +:+ pretty n)
         ∧ _nodes self !! ("input_" +:+ pretty n)
           = Some (mx.Variable_ ("input_" +:+ pretty n) None))
  ∧ (∀ k p, k ∉ (onnx.value_name <$> onnx.graph_input graph) →
       _params self0 !! k = Some p → _params self !! k = Some p).
Proof.
  intros Hload Hnodup Hinit Hinputs self.
  destruct (load_initializers_renames to_array _ _ _ Hload) as (Hr & Hi & Hp).
  pose proof (load_initializers_nodes _ _ _ Hload) as Hn.
  simpl in Hr, Hi, Hp, Hn.
  assert (weights_inv (_params self0) [] self0) as Hinv0.
  { unfold weights_inv. rewrite Hn, Hi, Hp. split_and!.
    - done.
    - intros n Hsome. exfalso. apply (Hinit _ Hsome). by exists n.
    - intros n. rewrite lookup_empty. by intros [? ?].
    - intros n. rewrite lookup_empty. by intros [? ?].
    - by intros k p ?%elem_of_nil.
    - by intros k ?%elem_of_nil. }
  destruct (rename_inputs_weights (_params self0) (onnx.graph_input graph) [] self0
              Hnodup Hinputs Hinv0) as (Hkeep & Hpar & _ & _ & Hmoved & Hplain).
  simpl in Hkeep, Hmoved, Hplain.
  split_and!.
  - unfold ingest. by rewrite Hload.
  - intros i p Hin Hp0. apply Hmoved; [|done]. by apply list_elem_of_fmap_2.
  - intros i Hin Hp0. apply Hplain; [|done]. by apply list_elem_of_fmap_2.
  - intros k p Hk Hp0. rewrite <- Hp0. apply Hkeep; [|done].
    apply Hinit. by rewrite Hp0.
Qed.

(** ** The node loop and the result *)

(** Case analysis on a statement that did not raise. *)
Tactic Notation "inv_bind" hyp(H) "as" simple_intropattern(p) :=
  match type of H with
  | (?m ≫= _) = Ok _ =>
      destruct m as [p|] eqn:?;
      [rewrite bind_Ok in H; cbv beta iota in H | discriminate H]
  end.

Lemma convert_node_frame (graph : onnx.GraphProto) (self self' : GraphProto)
    (idx : nat) (node : onnx.NodeProto) :
  convert_node _identity_list _convert_map mx_registry list_outputs
    parse_float parse_int graph self idx node = Ok self' →
  _renames self' = _renames self
  ∧ _num_input self' = _num_input self
  ∧ _num_param self' = _num_param self
  ∧ (∀ k, mx.buffer <$> _params self' !! k = mx.buffer <$> _params self !! k)
  ∧ (∀ k, mx.size <$> _params self' !! k = mx.size <$> _params self !! k).
Proof.
  unfold convert_node. cbv zeta. intros Hrun.
  inv_bind Hrun as attr. inv_bind Hrun as [new_op new_attr].
  inv_bind Hrun as inputs. inv_bind Hrun as new_attr1. inv_bind Hrun as new_attr2.
  inv_bind Hrun as last_node. inv_bind Hrun as self1. inv_bind Hrun as inputs1.
  inv_bind Hrun as [[new_op' inputs'] new_attr'].
  inv_bind Hrun as op. inv_bind Hrun as node_output. inv_bind Hrun as [].
  match goal with
  | Hfix : _fix_bias_shape _ _ _ _ = Ok ?s |- _ =>
      destruct (fix_bias_shape_frame _ _ _ _ _ Hfix) as (Hr & Hi & Hp & Hb & Hs & _)
  end.
  simplify_eq. by simpl.
Qed.

Lemma convert_nodes_frame (graph : onnx.GraphProto) (nodes : list onnx.NodeProto)
    (self self' : GraphProto) (idx : nat) :
  convert_nodes _identity_list _convert_map mx_registry list_outputs
    parse_float parse_int graph self idx nodes = Ok self' →
  _renames self' = _renames self
  ∧ _num_input self' = _num_input self
  ∧ _num_param self' = _num_param self
  ∧ (∀ k, mx.buffer <$> _params self' !! k = mx.buffer <$> _params self !! k)
  ∧ (∀ k, mx.size <$> _params self' !! k = mx.size <$> _params self !! k).
Proof.
  revert self idx. induction nodes as [|node nodes IH]; intros self idx Hrun;
    simpl in Hrun.
  - by simplify_eq.
  - destruct (convert_node _ _ _ _ _ _ graph self idx node) as [self1|] eqn:Hnode;
      [rewrite bind_Ok in Hrun | done].
    destruct (convert_node_frame _ _ _ _ _ Hnode) as (Hr & Hi & Hp & Hb & Hs).
    destruct (IH _ _ Hrun) as (Hr' & Hi' & Hp' & Hb' & Hs').
    split_and!; [congruence | congruence | congruence | |].
    + intros k. by rewrite Hb', Hb.
    + intros k. by rewrite Hs', Hs.
Qed.

(** X22.  The parameters [from_onnx] returns are the ones ingestion left:
    the node loop adds, removes and renames no parameter and keeps the
    buffer and the number of elements of each (only a shape can change). *)
Theorem from_onnx_params (graph : onnx.GraphProto) (out : mx.Symbol)
    (params : gmap string mx.ndarray) :
  from_onnx _identity_list _convert_map mx_registry to_array list_outputs
    parse_float parse_int __init__ graph = Ok (out, params) →
  ∃ self : GraphProto,
    ingest to_array __init__ graph = Ok self
    ∧ (∀ k, mx.buffer <$> params !! k = mx.buffer <$> _params self !! k)
    ∧ (∀ k, mx.size <$> params !! k = mx.size <$> _params self !! k).
Proof.
  unfold from_onnx. intros Hrun.
  inv_bind Hrun as self1. inv_bind Hrun as self2. inv_bind Hrun as outs.
  inv_bind Hrun as out'.
  match goal with
  | Hconv : convert_nodes _ _ _ _ _ _ _ _ _ _ = Ok _ |- _ =>
      destruct (convert_nodes_frame _ _ _ _ _ Hconv) as (_ & _ & _ & Hb & Hs)
  end.
  simplify_eq. by eexists.
Qed.

(** X24.  Once ingestion and the node loop have run: a graph that declares
    no output makes [from_onnx] raise [IndexError]; with one declared output
    the symbol registered under its name is returned as it is; with two or
    more, the symbols are returned in a group, in the declared order. *)
Theorem from_onnx_outputs (graph : onnx.GraphProto) (self1 self2 : GraphProto) :
  ingest to_array __init__ graph = Ok self1 →
  convert_nodes _identity_list _convert_map mx_registry list_outputs
    parse_float parse_int graph self1 0 (onnx.node graph) = Ok self2 →
  (onnx.graph_output graph = [] →
     from_onnx _identity_list _convert_map mx_registry to_array list_outputs
       parse_float parse_int __init__ graph = Raise IndexError)
  ∧ (∀ o x, onnx.graph_output graph = [o] →
       _nodes self2 !! onnx.value_name o = Some x →
       from_onnx _identity_list _convert_map mx_registry to_array list_outputs
         parse_float parse_int __init__ graph = Ok (x, _params self2))
  ∧ (∀ xs, (2 ≤ length (onnx.graph_output graph))%nat →
       Forall2 (λ o x, _nodes self2 !! onnx.value_name o = Some x)
         (onnx.graph_output graph) xs →
       from_onnx _identity_list _convert_map mx_registry to_array list_outputs
         parse_float parse_int __init__ graph = Ok (mx.Group xs, _params self2)).
Proof.
  intros Hingest Hconv. unfold from_onnx. rewrite Hingest, bind_Ok. cbv beta.
  rewrite Hconv, bind_Ok. cbv beta. split_and!.
  - by intros ->.
  - intros o x -> Hx. simpl. unfold dict_getitem. by rewrite Hx.
  - intros xs Hlen Hxs.
    assert (collect_outputs self2 (onnx.graph_output graph) = Ok xs) as ->.
    { clear Hlen. induction Hxs as [|o x os xs' Hx Hrest IH]; [done|].
      simpl. unfold dict_getitem. rewrite Hx. simpl. by rewrite IH. }
    rewrite bind_Ok. cbv beta.
    rewrite decide_True; [done|].
    rewrite <- (Forall2_length _ _ _ Hxs). lia.
Qed.

(** X15.  Whatever its arguments, a call of [_fix_bias_shape] that returns
    has left [_renames] and the counters alone, has added and removed no
    parameter, has kept the buffer and the number of elements of every
    parameter, and has removed no node. *)
Theorem fix_bias_shape_keeps_parameters (self self' : GraphProto)
    (op_name last_op_name : string) (inputs : list string) :
  _fix_bias_shape self op_name last_op_name inputs = Ok self' →
  _renames self' = _renames self
  ∧ _num_input self' = _num_input self
  ∧ _num_param self' = _num_param self
  ∧ (∀ k, mx.buffer <$> _params self' !! k = mx.buffer <$> _params self !! k)
  ∧ (∀ k, mx.size <$> _params self' !! k = mx.size <$> _params self !! k)
  ∧ (∀ k, is_Some (_nodes self !! k) → is_Some (_nodes self' !! k)).
Proof. apply fix_bias_shape_frame. Qed.

(** X17.  A call of [_fix_gemm] that returns has consumed at least 3
    inputs and yields exactly 3 inputs and a dictionary with the single key
    [num_hidden]: nothing of the attributes it was given is passed on. *)
Theorem fix_gemm_Ok (self : GraphProto) (op_name : string)
    (inputs new_inputs : list mx.Symbol) (old_attr new_attr : attrs_t)
    (op : option string) :
  fix_gemm self op_name inputs old_attr = Ok (op, new_inputs, new_attr) →
  (3 ≤ length inputs)%nat
  ∧ length new_inputs = 3%nat
  ∧ op = getattr_mx_sym mx_registry op_name
  ∧ ∃ d : Z, new_attr = {["num_hidden" := Int d]}.
Proof. apply fix_gemm_Ok_inv. Qed.

(** X28.  A ['Gemm'] node whose conversion returns is registered as a
    [FullyConnected] symbol with exactly 3 arguments and the single
    attribute [num_hidden]: what the converter of the table, [_fix_bias] and
    [_fix_channels] computed for it ([no_bias] included) is dropped.  The
    parameters are left as they were. *)
Theorem convert_node_gemm (graph : onnx.GraphProto) (self self' : GraphProto)
    (idx : nat) (node : onnx.NodeProto) :
  onnx.op_type node = "Gemm" →
  convert_node _identity_list _convert_map mx_registry list_outputs
    parse_float parse_int graph self idx node = Ok self' →
  ∃ (args : list mx.Symbol) (d : Z),
    length args = 3%nat
    ∧ _nodes self'
      = register_outputs (_nodes self)
          (mx.apply "FullyConnected"
             (if decide (strip (onnx.node_name node) = "") then None
              else Some (strip (onnx.node_name node)))
             args {["num_hidden" := Int d]})
          (onnx.output node) 0
    ∧ _params self' = _params self.
Proof.
  intros Hop. unfold convert_node. cbv zeta. rewrite Hop. intros Hrun.
  inv_bind Hrun as attr. inv_bind Hrun as [new_op new_attr].
  inv_bind Hrun as inputs. inv_bind Hrun as new_attr1. inv_bind Hrun as new_attr2.
  inv_bind Hrun as last_node.
  rewrite fix_bias_shape_not_triggered in Hrun by (by intros [? _]).
  rewrite bind_Ok in Hrun. cbv beta in Hrun.
  inv_bind Hrun as inputs1.
  rewrite (decide_True (P := "Gemm" = "Gemm")) in Hrun by done.
  inv_bind Hrun as [[new_op' inputs'] new_attr'].
  match goal with
  | Hgemm : _fix_gemm _ _ _ _ _ _ _ = Ok _ |- _ =>
      destruct (fix_gemm_Ok_inv _ _ _ _ _ _ _ Hgemm) as (_ & Hlen & -> & d & ->)
  end.
  change (getattr_mx_sym mx_registry "FullyConnected") with (Some "FullyConnected")
    in Hrun.
  unfold call_op in Hrun.
  rewrite (decide_False (P := is_Some (({["num_hidden" := Int d]} : attrs_t) !! "name")))
    in Hrun by (rewrite lookup_singleton_ne by done; by intros [? ?]).
  rewrite bind_Ok in Hrun. cbv beta in Hrun.
  unfold _fix_outputs in Hrun.
  rewrite (decide_False (P := "Gemm" = "Dropout")) in Hrun by done.
  rewrite bind_Ok in Hrun. cbv beta in Hrun.
  inv_bind Hrun as [].
  simplify_eq. exists inputs', d. by simpl.
Qed.

End More.

(** * The further properties at sample inputs *)

Lemma parse_two_attributes :
  _parse_attr [kernel_attr; group_attr]
  = Ok (<["group" := Int 1]> (<["kernel_shape" := Tuple [Int 3; Int 3]]> ∅)).
Proof. vm_compute. reflexivity. Defined.

Lemma parse_group_attribute : _parse_attr [group_attr] = Ok (<["group" := Int 1]> ∅).
Proof. vm_compute. reflexivity. Defined.

Lemma attr_without_nested (name : string) (f : option float) (i : option Z)
    (s : option string) (floats : list float) (ints : list Z) (strings : list string) :
  no_nested_field (attr name f i s floats ints strings).
Proof. by repeat split. Defined.

(** X1 at a list of two attributes. *)
Lemma parse_attr_keys_witness :
  dom (<["group" := Int 1]> (<["kernel_shape" := Tuple [Int 3; Int 3]]> (∅ : attrs_t)))
  = (list_to_set ["kernel_shape"; "group"] : gset string).
Proof.
  exact (parse_attr_keys [kernel_attr; group_attr] _ parse_two_attributes).
Defined.

(** X2 at the first attribute of that list. *)
Lemma parse_attr_rejects_tensors_and_graphs_witness :
  onnx.t kernel_attr = None ∧ onnx.g kernel_attr = None
  ∧ onnx.tensors kernel_attr = [] ∧ onnx.graphs kernel_attr = [].
Proof.
  apply (parse_attr_rejects_tensors_and_graphs [kernel_attr; group_attr] _ kernel_attr
           parse_two_attributes).
  by left.
Defined.

(** X3 at an empty attribute with a new name, and with the name of the
    attribute before it. *)
Lemma parse_attr_empty_attribute_witness :
  _parse_attr ([group_attr] ++ [blank_attr "pads"])
  = Raise (ValueError "Cannot parse attribute: {}.")
  ∧ _parse_attr ([group_attr] ++ [blank_attr "group"]) = Ok (<["group" := Int 1]> ∅).
Proof.
  split.
  - apply (proj1 (parse_attr_empty_attribute [group_attr] _ (blank_attr "pads")
                    parse_group_attribute
                    (conj eq_refl (conj eq_refl eq_refl))
                    (conj eq_refl (conj eq_refl eq_refl))
                    (attr_without_nested _ _ _ _ _ _ _))).
    reflexivity.
  - apply (proj2 (parse_attr_empty_attribute [group_attr] _ (blank_attr "group")
                    parse_group_attribute
                    (conj eq_refl (conj eq_refl eq_refl))
                    (conj eq_refl (conj eq_refl eq_refl))
                    (attr_without_nested _ _ _ _ _ _ _))).
    eexists. vm_compute. reflexivity.
Defined.

(** X4 at an attribute with [f] and [i] set, after one of the same name. *)
Lemma parse_attr_scalar_precedence_witness :
  _parse_attr ([group_attr] ++ [attr "group" (Some 1.0%float) (Some 2) None [] [] []])
  = Ok (<["group" := Int 2]> (<["group" := Int 1]> ∅)).
Proof.
  apply (parse_attr_scalar_precedence [group_attr] _
           (attr "group" (Some 1.0%float) (Some 2) None [] [] []) (Int 2)
           parse_group_attribute
           (conj eq_refl (conj eq_refl eq_refl))
           (attr_without_nested _ _ _ _ _ _ _)).
  reflexivity.
Defined.

(** X5 at an attribute with a list field whose name is taken. *)
Lemma parse_attr_list_on_present_name_witness :
  _parse_attr ([group_attr] ++ [attr "group" None None None [] [1] []])
  = Raise (AssertionError "Only one type of attr is allowed").
Proof.
  apply (parse_attr_list_on_present_name [group_attr] _
           (attr "group" None None None [] [1] []) parse_group_attribute).
  - left. eexists. vm_compute. reflexivity.
  - intros (_ & Hints & _). discriminate Hints.
Defined.

(** X6 at an attribute with one list field, and at one with two. *)
Lemma parse_attr_list_fields_witness :
  _parse_attr ([group_attr] ++ [kernel_attr])
  = Ok (<["kernel_shape" := Tuple [Int 3; Int 3]]> (<["group" := Int 1]> ∅))
  ∧ _parse_attr ([group_attr] ++ [attr "pads" None None None [1.0%float] [1] []])
    = Raise (AssertionError "Only one type of attr is allowed").
Proof.
  split.
  - apply (proj1 (proj2 (parse_attr_list_fields [group_attr] _ kernel_attr
                           parse_group_attribute eq_refl
                           (conj eq_refl (conj eq_refl eq_refl))
                           (attr_without_nested _ _ _ _ _ _ _))));
      [reflexivity | discriminate | reflexivity].
  - apply (proj2 (proj2 (proj2 (parse_attr_list_fields [group_attr] _
                                  (attr "pads" None None None [1.0%float] [1] [])
                                  parse_group_attribute eq_refl
                                  (conj eq_refl (conj eq_refl eq_refl))
                                  (attr_without_nested _ _ _ _ _ _ _))))).
    left. split; discriminate.
Defined.

Lemma convert_Conv :
  _convert_operator identity_list convert_map registry "Conv" ∅ None None
  = Ok ("Convolution", ∅).
Proof. vm_compute. reflexivity. Defined.

(** X7 at ["Conv"], which the sample table renames. *)
Lemma convert_operator_Ok_witness : "Convolution" ∈ mx_sym_dir registry.
Proof.
  exact (proj1 (convert_operator_Ok identity_list convert_map registry "Conv" ∅
                  None None "Convolution" ∅ convert_Conv)).
Defined.

(** X9 at ["Convolution"], an operator of [mx.sym] that is in neither table. *)
Lemma convert_operator_unsupported_witness :
  _convert_operator identity_list convert_map registry "Convolution" ∅ None None
  = Raise (NotImplementedError "Operator {} not implemented.").
Proof.
  apply (convert_operator_unsupported identity_list convert_map registry
           "Convolution" ∅ None None).
  - compute_done.
  - vm_compute. reflexivity.
Defined.

(** X10 at a Convolution with 3 inputs. *)
Lemma fix_bias_frame_witness :
  _fix_bias "Convolution" (<["no_bias" := Bool true]> ∅) 3 = _fix_bias "Convolution" ∅ 3.
Proof.
  exact (proj2 (fix_bias_frame "Convolution" ∅ 3) in_conv_family_Convolution (Bool true)).
Defined.

Lemma fix_channels_dense :
  _fix_channels dense_state "FullyConnected" ∅ ["x"; "w"]
  = Ok (<["num_hidden" := Int 10]> ∅).
Proof. vm_compute. reflexivity. Defined.

(** X11 at the FullyConnected node with the weight ["w"]. *)
Lemma fix_channels_Ok_witness :
  ∃ (i1 weight_name : string) (w : mx.ndarray),
    ["x"; "w"] !! 1%nat = Some i1
    ∧ _renames dense_state !! i1 = Some weight_name
    ∧ _params dense_state !! weight_name = Some w
    ∧ (2 ≤ length (mx.shape w))%nat.
Proof.
  exact (proj2 (fix_channels_Ok dense_state "FullyConnected" ∅ _ ["x"; "w"]
                  fix_channels_dense) in_conv_family_FullyConnected).
Defined.

(** X12 at a node with one input, at a weight whose canonical name is no
    parameter, and at the weight ["b"] of rank 1. *)
Lemma fix_channels_failures_witness :
  _fix_channels dense_state "Convolution" ∅ ["x"] = Raise IndexError
  ∧ _fix_channels dangling_state "Convolution" ∅ ["x"; "w"]
    = Raise (ValueError "Unable to get channels/units attr from onnx graph.")
  ∧ _fix_channels dense_state "Convolution" ∅ ["x"; "b"]
    = Raise (AssertionError "Weights shape is invalid: {}").
Proof.
  split_and!.
  - apply (proj1 (fix_channels_failures dense_state "Convolution" ∅ ["x"]
                    in_conv_family_Convolution)).
    simpl. lia.
  - apply (proj1 (proj2 (fix_channels_failures dangling_state "Convolution" ∅ ["x"; "w"]
                           in_conv_family_Convolution) "w" "param_9" eq_refl eq_refl)).
    reflexivity.
  - apply (proj2 (proj2 (fix_channels_failures dense_state "Convolution" ∅ ["x"; "b"]
                           in_conv_family_Convolution) "b" "param_2" eq_refl eq_refl)
             {| mx.shape := [16]; mx.buffer := [] |}).
    + reflexivity.
    + simpl. lia.
Defined.

(** X13 at the bias ["b"] of shape (16,), used by two adds. *)
Lemma fix_bias_shape_twice_witness :
  (self1 ← _fix_bias_shape dense_state "Add" "Conv" ["x"; "b"];
   _fix_bias_shape self1 "Add" "Conv" ["y"; "b"])
  = Raise (AssertionError "").
Proof.
  apply (fix_bias_shape_twice dense_state "x" "y" "b"
           {| mx.shape := [16]; mx.buffer := [] |} 16); reflexivity.
Defined.

(** X14 at the second node of [residual_graph]. *)
Lemma convert_node_add_of_activations_witness :
  convert_node identity_list convert_map registry list_outputs parse_float parse_int
    residual_graph residual_after_conv 1 (op_node "Add" ["c"; "x"] ["y"])
  = Raise (KeyError (Some "input_0")).
Proof.
  apply (convert_node_add_of_activations identity_list convert_map registry
           list_outputs parse_float parse_int residual_graph residual_after_conv 0
           (op_node "Add" ["c"; "x"] ["y"]) (op_node "Conv" ["x"; "w"] ["c"])
           "c" "x" ∅ ∅ "broadcast_add"); try reflexivity.
  - exact broadcast_add_not_in_conv_family.
  - eexists. vm_compute. reflexivity.
  - eexists. vm_compute. reflexivity.
Defined.

Lemma fix_bias_shape_dense :
  _fix_bias_shape dense_state "Add" "Conv" ["x"; "b"]
  = Ok {| _nodes := <["param_2" := mx.Variable_ "param_2" (Some [1; 16; 1; 1])]>
                      (_nodes dense_state);
          _params := <["param_2" := {| mx.shape := [1; 16; 1; 1]; mx.buffer := [] |}]>
                       (_params dense_state);
          _renames := _renames dense_state;
          _num_input := _num_input dense_state;
          _num_param := _num_param dense_state |}.
Proof. vm_compute. reflexivity. Defined.

(** X15 at the reshape of the bias ["b"]. *)
Lemma fix_bias_shape_keeps_parameters_witness :
  mx.size <$> (<["param_2" := {| mx.shape := [1; 16; 1; 1]; mx.buffer := [] |}]>
                 (_params dense_state)) !! "param_2"
  = mx.size <$> _params dense_state !! "param_2".
Proof.
  exact (proj1 (proj2 (proj2 (proj2 (proj2
           (fix_bias_shape_keeps_parameters dense_state _ "Add" "Conv" ["x"; "b"]
              fix_bias_shape_dense))))) "param_2").
Defined.

(** X16 at a Gemm with two inputs. *)
Lemma fix_gemm_short_inputs_witness :
  _fix_gemm registry parse_float parse_int dense_state "FullyConnected"
    [mx.Variable_ "input_0" None; mx.Variable_ "param_0" (Some [10; 5])] ∅
  = Raise IndexError.
Proof.
  apply (fix_gemm_short_inputs registry parse_float parse_int dense_state
           "FullyConnected" _ ∅ 1.0%float 1.0%float 0 0);
    [reflexivity | reflexivity | reflexivity | reflexivity | simpl; lia].
Defined.

Lemma fix_gemm_dense :
  _fix_gemm registry parse_float parse_int dense_state "FullyConnected"
    gemm_inputs (<["alpha" := Float 2.0]> (<["transA" := Int 1]> ∅))
  = Ok (Some "FullyConnected", gemm_new_inputs, {["num_hidden" := Int 8]}).
Proof. vm_compute. reflexivity. Defined.

(** X17 at a Gemm given the attributes [alpha] and [transA]. *)
Lemma fix_gemm_Ok_witness :
  (3 ≤ length gemm_inputs)%nat
  ∧ length gemm_new_inputs = 3%nat
  ∧ Some "FullyConnected" = getattr_mx_sym registry "FullyConnected"
  ∧ ∃ d : Z, ({["num_hidden" := Int 8]} : attrs_t) = {["num_hidden" := Int d]}.
Proof.
  exact (fix_gemm_Ok registry parse_float parse_int dense_state "FullyConnected"
           _ _ _ _ _ fix_gemm_dense).
Defined.

(** X18 at a Gemm whose third input is the graph input [input_0]. *)
Lemma fix_gemm_bias_not_a_parameter_witness :
  _fix_gemm registry parse_float parse_int dense_state "FullyConnected"
    [mx.Variable_ "input_0" None; mx.Variable_ "param_0" (Some [10; 5]);
     mx.Variable_ "input_0" None] ∅
  = Raise (KeyError (Some "input_0")).
Proof.
  apply (fix_gemm_bias_not_a_parameter registry parse_float parse_int dense_state
           "FullyConnected" (mx.Variable_ "input_0" None)
           (mx.Variable_ "param_0" (Some [10; 5])) (mx.Variable_ "input_0" None) []
           ∅ 1.0%float 1.0%float 0 0); try reflexivity.
  intros n Hn. injection Hn as <-. reflexivity.
Defined.

Lemma three_input_load :
  for_each (load_initializer to_array) __init__ (onnx.initializer three_input_graph)
  = Ok three_input_loaded.
Proof. vm_compute. reflexivity. Defined.

Lemma three_input_ingest :
  ingest to_array __init__ three_input_graph
  = Ok (rename_inputs three_input_loaded (onnx.graph_input three_input_graph)).
Proof. vm_compute. reflexivity. Defined.

(** X19 at the initializers of [three_input_graph]. *)
Lemma load_initializers_Ok_witness :
  (∀ t, t ∈ onnx.initializer three_input_graph → strip (onnx.tensor_name t) ≠ "")
  ∧ dom (_params three_input_loaded)
    = list_to_set (onnx.tensor_name <$> onnx.initializer three_input_graph)
      ∪ dom (_params __init__)
  ∧ _nodes three_input_loaded = _nodes __init__
  ∧ (NoDup (onnx.tensor_name <$> onnx.initializer three_input_graph) →
     ∀ t, t ∈ onnx.initializer three_input_graph →
       ∃ a, _parse_array to_array t = Ok a
            ∧ _params three_input_loaded !! onnx.tensor_name t = Some a).
Proof.
  exact (load_initializers_Ok to_array __init__ three_input_loaded
           (onnx.initializer three_input_graph) three_input_load).
Defined.

(** X20 at [duplicate_input_graph], whose input name repeats. *)
Lemma ingest_nodes_dense_witness :
  (∀ v : string,
     is_Some (_nodes (rename_inputs __init__ [value "x"; value "x"]) !! v)
     ↔ assigned (rename_inputs __init__ [value "x"; value "x"]) v)
  ∧ (_num_input (rename_inputs __init__ [value "x"; value "x"])
     + _num_param (rename_inputs __init__ [value "x"; value "x"]) = 2)%nat.
Proof.
  apply (ingest_nodes_dense to_array duplicate_input_graph
           (rename_inputs __init__ [value "x"; value "x"])).
  reflexivity.
Defined.

(** X21 at the input ["w"] of [three_input_graph]. *)
Lemma ingest_inputs_resolve_witness :
  ∃ v x,
    _renames (rename_inputs three_input_loaded (onnx.graph_input three_input_graph))
      !! "w" = Some v
    ∧ _nodes (rename_inputs three_input_loaded (onnx.graph_input three_input_graph))
        !! v = Some x
    ∧ resolve_inputs
        (rename_inputs three_input_loaded (onnx.graph_input three_input_graph)) ["w"]
      = Ok [x].
Proof.
  apply (ingest_inputs_resolve to_array three_input_graph _ (value "w")
           three_input_ingest).
  right. by left.
Defined.

Lemma conv_bias_from_onnx :
  from_onnx identity_list convert_map registry to_array list_outputs parse_float
    parse_int __init__ conv_bias_graph
  = Ok (conv_bias_output, conv_bias_params).
Proof. vm_compute. reflexivity. Defined.

Lemma conv_bias_ingest :
  ingest to_array __init__ conv_bias_graph = Ok conv_bias_ingested.
Proof. vm_compute. reflexivity. Defined.

Lemma conv_bias_convert :
  convert_nodes identity_list convert_map registry list_outputs parse_float parse_int
    conv_bias_graph conv_bias_ingested 0 (onnx.node conv_bias_graph)
  = Ok conv_bias_converted.
Proof. vm_compute. reflexivity. Defined.

(** X22 at [conv_bias_graph], whose bias is reshaped by the node loop. *)
Lemma from_onnx_params_witness :
  ∃ self : GraphProto,
    ingest to_array __init__ conv_bias_graph = Ok self
    ∧ (∀ k, mx.buffer <$> conv_bias_params !! k = mx.buffer <$> _params self !! k)
    ∧ (∀ k, mx.size <$> conv_bias_params !! k = mx.size <$> _params self !! k).
Proof.
  exact (from_onnx_params identity_list convert_map registry to_array list_outputs
           parse_float parse_int conv_bias_graph conv_bias_output conv_bias_params
           conv_bias_from_onnx).
Defined.

(** X23 at an identifier that is in neither registry. *)
Lemma resolve_inputs_spec_witness :
  resolve_inputs dense_state ["q"] = Raise (KeyError (Some "q")).
Proof.
  apply (proj2 (resolve_inputs_spec dense_state ["q"]) [] "q" []).
  - reflexivity.
  - by intros j ?%elem_of_nil.
  - reflexivity.
Defined.

(** X24 at [conv_bias_graph], which declares one output. *)
Lemma from_onnx_outputs_witness :
  from_onnx identity_list convert_map registry to_array list_outputs parse_float
    parse_int __init__ conv_bias_graph
  = Ok (conv_bias_output, _params conv_bias_converted).
Proof.
  apply (proj1 (proj2 (from_onnx_outputs identity_list convert_map registry to_array
                         list_outputs parse_float parse_int conv_bias_graph
                         conv_bias_ingested conv_bias_converted
                         conv_bias_ingest conv_bias_convert)) (value "y")).
  - reflexivity.
  - vm_compute. reflexivity.
Defined.

(** X25 at the two outputs of a dropout. *)
Lemma register_outputs_lookup_witness :
  register_outputs ∅ conv_bias_output ["y"; "mask"] 0 !! "mask"
  = Some (mx.getitem conv_bias_output 1).
Proof.
  apply (proj1 (register_outputs_lookup ∅ conv_bias_output ["y"; "mask"]
                  ltac:(compute_done)) 1%nat "mask").
  reflexivity.
Defined.

(** X26 at a tensor of dimensions (10, 5). *)
Lemma parse_array_shape_witness :
  ∃ a, _parse_array to_array (tensor "w" [10; 5]) = Ok a
       ∧ mx.shape a = [10; 5]
       ∧ length (mx.buffer a) = length (mx.buffer {| mx.shape := [10; 5]; mx.buffer := [] |}).
Proof.
  apply (proj1 (parse_array_shape to_array (tensor "w" [10; 5])
                  {| mx.shape := [10; 5]; mx.buffer := [] |}
                  ltac:(repeat constructor; lia) eq_refl)).
  reflexivity.
Defined.

(** X27 at the initializer ["w"] of [three_input_graph]. *)
Lemma ingest_keeps_weights_witness :
  ∃ n : nat,
    _renames (rename_inputs three_input_loaded (onnx.graph_input three_input_graph))
      !! "w" = Some ("param_" +:+ pretty n)
    ∧ _params (rename_inputs three_input_loaded (onnx.graph_input three_input_graph))
        !! ("param_" +:+ pretty n)
      = Some {| mx.shape := [10; 5]; mx.buffer := [] |}
    ∧ _nodes (rename_inputs three_input_loaded (onnx.graph_input three_input_graph))
        !! ("param_" +:+ pretty n)
      = Some (mx.Variable_ ("param_" +:+ pretty n) (Some [10; 5])).
Proof.
  assert (∀ k, is_Some (_params three_input_loaded !! k) → ¬ param_name k) as Hinit.
  { intros k [p Hk] [n ->].
    change (_params three_input_loaded)
      with (<["b" := {| mx.shape := [10]; mx.buffer := [] |}]>
              (<["w" := {| mx.shape := [10; 5]; mx.buffer := [] |}]>
                 (∅ : gmap string mx.ndarray))) in Hk.
    rewrite !lookup_insert_ne in Hk by (simpl; discriminate).
    by rewrite lookup_empty in Hk. }
  assert (∀ i, i ∈ onnx.graph_input three_input_graph →
               ¬ param_name (onnx.value_name i)) as Hinputs.
  { intros i Hi [n Hn]. simpl in Hi.
    repeat (apply elem_of_cons in Hi as [->|Hi]; [simpl in Hn; discriminate Hn|]).
    by apply elem_of_nil in Hi. }
  apply (proj1 (proj2 (ingest_keeps_weights to_array three_input_graph
                         three_input_loaded three_input_load
                         ltac:(compute_done) Hinit Hinputs))
           (value "w") {| mx.shape := [10; 5]; mx.buffer := [] |}).
  - right. by left.
  - vm_compute. reflexivity.
Defined.

Lemma gemm_convert :
  convert_node identity_list convert_map registry list_outputs parse_float parse_int
    gemm_graph gemm_ingested 0 gemm_node
  = Ok gemm_converted.
Proof. vm_compute. reflexivity. Defined.

(** X28 at the node of [gemm_graph]. *)
Lemma convert_node_gemm_witness :
  ∃ (args : list mx.Symbol) (d : Z),
    length args = 3%nat
    ∧ _nodes gemm_converted
      = register_outputs (_nodes gemm_ingested)
          (mx.apply "FullyConnected"
             (if decide (strip (onnx.node_name gemm_node) = "") then None
              else Some (strip (onnx.node_name gemm_node)))
             args {["num_hidden" := Int d]})
          (onnx.output gemm_node) 0
    ∧ _params gemm_converted = _params gemm_ingested.
Proof.
  exact (convert_node_gemm identity_list convert_map registry list_outputs
           parse_float parse_int gemm_graph gemm_ingested gemm_converted 0 gemm_node
           eq_refl gemm_convert).
Defined.
